(** * fingerprint-sensor-server: the capture handler of [main.go]

    A shallow embedding of [HandleCapture] (main.go, lines 23-77) together
    with the parts of the Go runtime it calls ([os.Stat], [filepath.Join],
    [filepath.Abs], [exec.Command], [Cmd.Run], [bytes.Buffer], [http.Error],
    [io.Copy], [log.Printf], [time.Now]).  Everything the handler cannot
    decide by itself (the operating system, the file system, the child
    process, the client connection) is a field of a [World] record; the
    handler is a program in a small state monad that threads the clock, a
    chronological trace of its effects, the [http.ResponseWriter] and the
    store of the buffers it declares, which the command is wired to by
    pointer.

    The definitions come first: the runtime, the handler, the server
    around it, plain functions that describe what each phase of the
    handler does, and the build script.  The lemmas prove those
    descriptions equal to the code, and the properties of the
    specification follow from them, C1 to C10. *)

From Stdlib Require Import ZArith NArith List Strings.Ascii Strings.String Strings.Byte.
From stdpp Require Import base strings gmap list.

Local Open Scope string_scope.

(** ** Values *)

(** The line feed, written ["\n"] in Go string literals. *)
Definition nl : string := String (ascii_of_nat 10) EmptyString.

(** Go's [error] values that can reach the handler.  A nil [error] is
    [None] of [option error]. *)
Inductive error : Type :=
| ErrNoCommand                 (* exec: no command *)
| ErrShortWrite                (* io.ErrShortWrite *)
| ExitError (code : Z)         (* *exec.ExitError, exit status [code] *)
| ErrMsg (msg : string).       (* any other error, by its text *)

(** Arguments of a log call, left unformatted. *)
Inductive LogArg : Type :=
| AStr (s : string)
| AErr (e : error)
| ADur (d : N).

(** One call of the [log] package. *)
Inductive LogEntry : Type :=
| Printf (format : string) (args : list LogArg)
| Println (args : list LogArg).

(** [bytes.Buffer]: the bytes [buf[off:]] are unread. *)
Record Buffer : Type := mkBuffer {
  buf : list byte;
  off : nat
}.

(** The zero value, as declared by [var stdoutBuf, stderrBuf bytes.Buffer]. *)
Definition Buffer_zero : Buffer := {| buf := []; off := 0 |}.

Definition Buffer_Bytes (b : Buffer) : list byte := drop (off b) (buf b).
Definition Buffer_Len (b : Buffer) : nat := length (buf b) - off b.
Definition Buffer_String (b : Buffer) : string :=
  string_of_list_byte (Buffer_Bytes b).
Definition Buffer_Write (b : Buffer) (p : list byte) : Buffer :=
  {| buf := buf b ++ p; off := off b |}.
Definition Buffer_Reset (b : Buffer) : Buffer := Buffer_zero.

(** [exec.Cmd], with the four fields the handler touches.  [Args] holds
    the command name followed by its arguments, as in Go.  [Stdout] and
    [Stderr] are writers: nil, or a pointer to a buffer in the store. *)
Record Cmd : Type := mkCmd {
  Path : string;
  Args : list string;
  Stdout : option nat;
  Stderr : option nat
}.

(** ** The world outside the handler *)

(** What becomes of a command that is started. *)
Inductive ProcOutcome : Type :=
| StartFailed (e : error)
| Exited (code : Z) (out errout : list byte) (took : N).

(** What the client connection does with a [Write]: it takes everything,
    or it takes [n] bytes and reports [e]. *)
Inductive WriteOutcome : Type :=
| WriteOk
| WriteErr (n : nat) (e : error).

Record World : Type := mkWorld {
  GOOS : string;                                   (* runtime.GOOS *)
  fs_stat : string -> option error;                (* err of os.Stat *)
  fs_abs : string -> string + error;               (* filepath.Abs *)
  os_exec : string -> list string -> ProcOutcome;  (* start and wait *)
  conn_write : list byte -> WriteOutcome;          (* the response stream *)
  stat_took : N;                                   (* time spent in os.Stat *)
  write_took : N                                   (* time spent in a Write *)
}.

(** ** The response writer *)

(** [http.ResponseWriter] as net/http implements it: a header map that
    the handler edits, frozen into [sentHeader] when the status line is
    written; [writes] are the slices handed to [Write], [delivered] the
    bytes the connection took. *)
Record ResponseWriter : Type := mkResponseWriter {
  handlerHeader : gmap string (list string);
  wroteHeader : bool;
  status : Z;
  sentHeader : gmap string (list string);
  writes : list (list byte);
  delivered : list byte
}.

Definition newResponse : ResponseWriter :=
  {| handlerHeader := ∅; wroteHeader := false; status := 0;
     sentHeader := ∅; writes := []; delivered := [] |}.

(** The body the handler wrote. *)
Definition Body (w : ResponseWriter) : list byte := concat (writes w).

(** [Header.Get]: the first value of the key, or the empty string. *)
Definition Header_Get (h : gmap string (list string)) (k : string) : string :=
  match h !! k with
  | Some (v :: _) => v
  | _ => ""
  end.

(** ** Effects *)

Inductive Event : Type :=
| EvLog (l : LogEntry)
| EvStat (path : string) (err : option error)
| EvAbs (path : string) (abs : string) (err : option error)
| EvRun (c : Cmd)                             (* c.Run() is called *)
| EvChild (o : ProcOutcome)                   (* Start failed, or the child is gone *)
| EvHeaderSet (k v : string)
| EvHeaderDel (k : string)
| EvWriteHeader (code : Z)
| EvWrite (p : list byte) (n : nat) (err : option error).

(** What a running handler has: the clock, what it has done so far, the
    response writer it was given, and the store of the buffers it has
    declared; a pointer to a buffer is its place in the store. *)
Record HState : Type := mkHState {
  clock : N;
  trace : list Event;
  rw : ResponseWriter;
  heap : list Buffer
}.

Inductive Res (A : Type) : Type :=
| Val (a : A)
| Panicked (msg : string).
Arguments Val {A} a.
Arguments Panicked {A} msg.

Definition M (A : Type) : Type := HState -> Res A * HState.

Definition ret {A} (a : A) : M A := fun s => (Val a, s).

Definition bind {A B} (c : M A) (k : A -> M B) : M B :=
  fun s =>
    match c s with
    | (Val a, s') => k a s'
    | (Panicked msg, s') => (Panicked msg, s')
    end.

Declare Scope go_scope.
Delimit Scope go_scope with go.
Bind Scope go_scope with M.

Notation "x <- c ;; k" := (bind c (fun x => k))
  (at level 100, c at next level, right associativity) : go_scope.
Notation "c ;; k" := (bind c (fun _ => k))
  (at level 100, right associativity) : go_scope.

Local Open Scope go_scope.

Definition panic {A} (msg : string) : M A := fun s => (Panicked msg, s).

Definition emit (e : Event) : M unit :=
  fun s => (Val tt, {| clock := clock s; trace := trace s ++ [e]; rw := rw s;
                       heap := heap s |}).

Definition sleep (d : N) : M unit :=
  fun s => (Val tt, {| clock := (clock s + d)%N; trace := trace s; rw := rw s;
                       heap := heap s |}).

Definition get_rw : M ResponseWriter := fun s => (Val (rw s), s).

Definition put_rw (w : ResponseWriter) : M unit :=
  fun s => (Val tt, {| clock := clock s; trace := trace s; rw := w;
                       heap := heap s |}).

(** [var b bytes.Buffer], with [&b] taken: a new zero buffer in the store,
    and the pointer to it. *)
Definition new_Buffer : M nat :=
  fun s => (Val (length (heap s)),
            {| clock := clock s; trace := trace s; rw := rw s;
               heap := heap s ++ [Buffer_zero] |}).

(** The buffer a pointer leads to, and an update through the pointer. *)
Definition deref (r : nat) : M Buffer :=
  fun s => (Val (default Buffer_zero (heap s !! r)), s).

Definition assign (r : nat) (b : Buffer) : M unit :=
  fun s => (Val tt, {| clock := clock s; trace := trace s; rw := rw s;
                       heap := <[r := b]> (heap s) |}).

(** The methods of [*bytes.Buffer] the handler calls on its buffers. *)
Definition ptr_String (r : nat) : M string :=
  b <- deref r;; ret (Buffer_String b).

Definition ptr_Len (r : nat) : M nat :=
  b <- deref r;; ret (Buffer_Len b).

(** A [Write] to the writer of a command: nothing is kept when it is nil,
    the bytes are appended when it is a buffer. *)
Definition Writer_Write (w : option nat) (p : list byte) : M unit :=
  match w with
  | None => ret tt
  | Some r => b <- deref r;; assign r (Buffer_Write b p)
  end.

(** [defer d] around a body: [d] runs when the body is left, whether it
    returned or panicked, and the body's result is kept. *)
Definition defer {A} (d : M unit) (body : M A) : M A :=
  fun s =>
    match body s with
    | (r, s') => (r, snd (d s'))
    end.

(** *** time *)

Definition time_Now : M N := fun s => (Val (clock s), s).

Definition time_Since (t : N) : M N := fun s => (Val (clock s - t)%N, s).

(** *** log *)

Definition log_Printf (format : string) (args : list LogArg) : M unit :=
  emit (EvLog (Printf format args)).

Definition log_Println (args : list LogArg) : M unit :=
  emit (EvLog (Println args)).

(** *** path/filepath and os *)

Definition Separator (goos : string) : string :=
  if bool_decide (goos = "windows") then "\" else "/".

(** [filepath.Join]: the non-empty elements, joined by the separator of
    the operating system.  Go then cleans the result; the joins of this
    program are clean as they are. *)
Definition filepath_Join (goos : string) (elem : list string) : string :=
  String.concat (Separator goos)
    (filter (fun e => e <> "") elem).

Definition os_Stat (W : World) (name : string) : M (option error) :=
  sleep (stat_took W);;
  emit (EvStat name (fs_stat W name));;
  ret (fs_stat W name).

(** [filepath.Abs] returns the empty string together with its error. *)
Definition abs_result (W : World) (path : string) : string * option error :=
  match fs_abs W path with
  | inl p => (p, None)
  | inr e => ("", Some e)
  end.

Definition filepath_Abs (W : World) (path : string) : M (string * option error) :=
  let r := abs_result W path in
  emit (EvAbs path (fst r) (snd r));;
  ret r.

(** *** os/exec *)

(** [exec.Command]: the name and the arguments, no writers yet. *)
Definition exec_Command (name : string) (arg : list string) : Cmd :=
  {| Path := name; Args := name :: arg; Stdout := None; Stderr := None |}.

(** What [c.Run()] meets: a command without a path is refused by
    [Cmd.Start] ("exec: no command") before anything is executed. *)
Definition proc_outcome (W : World) (c : Cmd) : ProcOutcome :=
  if bool_decide (Path c = "") then StartFailed ErrNoCommand
  else os_exec W (Path c) (Args c).

(** [Cmd.Run]: start the command and wait for it.  When [Run] returns
    everything the child wrote to its standard output has been written to
    [c.Stdout] and everything it wrote to its standard error to
    [c.Stderr]. *)
Definition Cmd_Run (W : World) (c : Cmd) : M (option error) :=
  emit (EvRun c);;
  match proc_outcome W c with
  | StartFailed e =>
      emit (EvChild (StartFailed e));;
      ret (Some e)
  | Exited code out errout took =>
      sleep took;;
      Writer_Write (Stdout c) out;;
      Writer_Write (Stderr c) errout;;
      emit (EvChild (Exited code out errout took));;
      ret (if bool_decide (code = 0%Z) then None else Some (ExitError code))
  end.

(** *** net/http *)

Definition Header_Set (k v : string) : M unit :=
  emit (EvHeaderSet k v);;
  w <- get_rw;;
  put_rw {| handlerHeader := <[k := [v]]> (handlerHeader w);
            wroteHeader := wroteHeader w; status := status w;
            sentHeader := sentHeader w; writes := writes w;
            delivered := delivered w |}.

Definition Header_Del (k : string) : M unit :=
  emit (EvHeaderDel k);;
  w <- get_rw;;
  put_rw {| handlerHeader := delete k (handlerHeader w);
            wroteHeader := wroteHeader w; status := status w;
            sentHeader := sentHeader w; writes := writes w;
            delivered := delivered w |}.

(** [WriteHeader]: the first call fixes the status and the header; a
    later one changes nothing. *)
Definition rw_commit (code : Z) (w : ResponseWriter) : ResponseWriter :=
  if wroteHeader w then w
  else {| handlerHeader := handlerHeader w;
          wroteHeader := true; status := code;
          sentHeader := handlerHeader w; writes := writes w;
          delivered := delivered w |}.

Definition WriteHeader (code : Z) : M unit :=
  emit (EvWriteHeader code);;
  w <- get_rw;;
  put_rw (rw_commit code w).

Definition StatusOK : Z := 200.
Definition StatusInternalServerError : Z := 500.

(** What a [Write] of [p] returns: the count never exceeds [length p],
    as [io.Writer] demands. *)
Definition conn_result (W : World) (p : list byte) : nat * option error :=
  match conn_write W p with
  | WriteOk => (length p, None)
  | WriteErr n e => (Nat.min n (length p), Some e)
  end.

(** [Write]: writes the header with status 200 first if no header was
    written, then hands [p] to the connection. *)
Definition Write (W : World) (p : list byte) : M (nat * option error) :=
  w <- get_rw;;
  let w := rw_commit StatusOK w in
  sleep (write_took W);;
  let r := conn_result W p in
  emit (EvWrite p (fst r) (snd r));;
  put_rw {| handlerHeader := handlerHeader w;
            wroteHeader := wroteHeader w; status := status w;
            sentHeader := sentHeader w; writes := writes w ++ [p];
            delivered := delivered w ++ take (fst r) p |};;
  ret r.

(** [fmt.Fprintln(w, s)]: one [Write] of [s] and a line feed. *)
Definition fmt_Fprintln (W : World) (s : string) : M (nat * option error) :=
  Write W (list_byte_of_string (s +:+ nl)).

(** [http.Error]. *)
Definition http_Error (W : World) (err : string) (code : Z) : M unit :=
  Header_Del "Content-Length";;
  Header_Set "Content-Type" "text/plain; charset=utf-8";;
  Header_Set "X-Content-Type-Options" "nosniff";;
  WriteHeader code;;
  fmt_Fprintln W err;;
  ret tt.

(** *** bytes and io *)

(** [Buffer.WriteTo]: one [Write] of the unread bytes. *)
Definition Buffer_WriteTo (W : World) (b : Buffer) : M (Buffer * nat * option error) :=
  let nBytes := Buffer_Len b in
  if (0 <? nBytes)%nat then
    r <- Write W (Buffer_Bytes b);;
    let '(m, e) := r in
    if (nBytes <? m)%nat then panic "bytes.Buffer.WriteTo: invalid Write count"
    else
      let b := {| buf := buf b; off := off b + m |} in
      match e with
      | Some e => ret (b, m, Some e)
      | None =>
          if negb (m =? nBytes)%nat then ret (b, m, Some ErrShortWrite)
          else ret (Buffer_Reset b, m, None)
      end
  else ret (Buffer_Reset b, 0, None).

(** [io.Copy(w, &buf)]: a [*bytes.Buffer] source is an [io.WriterTo], so
    the copy is its [WriteTo], which leaves the buffer read as far as the
    [Write] went. *)
Definition io_Copy (W : World) (src : nat) : M (nat * option error) :=
  b <- deref src;;
  r <- Buffer_WriteTo W b;;
  let '(b', n, err) := r in
  assign src b';;
  ret (n, err).

(** ** main.go *)

Definition pythonScript : string := "capture.py".

Definition HandleCapture (W : World) : M unit :=
  now <- time_Now;;
  defer (d <- time_Since now;;
         log_Printf "sent fingerprint image and took %s" [ADur d])
  ( let pythonExec := "python3" in
    let venvPythonPath := filepath_Join (GOOS W) ["venv"; "bin"; "python3"] in
    let venvPythonPath :=
      if bool_decide (GOOS W = "windows")
      then filepath_Join (GOOS W) ["venv"; "Scripts"; "python.exe"]
      else venvPythonPath in
    let pythonExec := "python3" in
    let pythonExec :=
      if bool_decide (GOOS W = "windows") then "python" else pythonExec in
    err <- os_Stat W venvPythonPath;;
    pythonExec <-
      match err with
      | None =>
          log_Println [AStr "Found virtual environment python executable at";
                       AStr venvPythonPath];;
          r <- filepath_Abs W venvPythonPath;;
          let '(venvPythonPath, _) := r in
          ret venvPythonPath
      | Some _ => ret pythonExec
      end;;
    let cmd := exec_Command pythonExec [pythonScript] in
    stdoutBuf <- new_Buffer;;
    stderrBuf <- new_Buffer;;
    let cmd := {| Path := Path cmd; Args := Args cmd;
                  Stdout := Some stdoutBuf; Stderr := Stderr cmd |} in
    let cmd := {| Path := Path cmd; Args := Args cmd;
                  Stdout := Stdout cmd; Stderr := Some stderrBuf |} in
    err <- Cmd_Run W cmd;;
    match err with
    | Some err =>
        log_Printf "Failed to capture fingerprint %v" [AErr err];;
        out <- ptr_String stdoutBuf;;
        log_Printf ("Python stdout:" +:+ nl +:+ "%s" +:+ nl) [AStr out];;
        errout <- ptr_String stderrBuf;;
        log_Printf ("Python stderr:" +:+ nl +:+ "%s" +:+ nl) [AStr errout];;
        errout <- ptr_String stderrBuf;;
        http_Error W ("Failed to capture fingerprint: " +:+ errout)
                   StatusInternalServerError
    | None =>
        n <- ptr_Len stdoutBuf;;
        if (n =? 0)%nat then
          log_Println [AStr "Python script returned empty output."];;
          http_Error W "No data received from Python script"
                     StatusInternalServerError
        else
          Header_Set "Content-Type" "image/png";;
          r <- io_Copy W stdoutBuf;;
          let '(_, err) := r in
          match err with
          | Some _ => ret tt
          | None => ret tt
          end
    end ).

(** ** Running the handler *)

(** A request meets a fresh response writer, an empty trace and no
    buffers of its own yet; the clock is whatever it is when the handler
    is entered. *)
Definition start (t : N) : HState :=
  {| clock := t; trace := []; rw := newResponse; heap := [] |}.

(** The state the handler leaves, and how it left. *)
Definition run (W : World) (t : N) : HState := snd (HandleCapture W (start t)).
Definition result (W : World) (t : N) : Res unit := fst (HandleCapture W (start t)).

(** *** Observations on a trace *)

Definition logs (tr : list Event) : list LogEntry :=
  omap (fun e => match e with EvLog l => Some l | _ => None end) tr.

Definition stats (tr : list Event) : list (string * option error) :=
  omap (fun e => match e with EvStat p err => Some (p, err) | _ => None end) tr.

(** The commands run, each as its name and the arguments after it. *)
Definition runs (tr : list Event) : list (string * list string) :=
  omap (fun e => match e with
                 | EvRun c => Some (Path c, drop 1 (Args c))
                 | _ => None
                 end) tr.

(** The commands [Run] was called on, as they were wired. *)
Definition commands (tr : list Event) : list Cmd :=
  omap (fun e => match e with EvRun c => Some c | _ => None end) tr.

Definition outcomes (tr : list Event) : list ProcOutcome :=
  omap (fun e => match e with EvChild o => Some o | _ => None end) tr.

Definition write_calls (tr : list Event) : list (list byte * nat * option error) :=
  omap (fun e => match e with EvWrite p n err => Some (p, n, err) | _ => None end) tr.

(** The events by which a handler answers. *)
Definition is_response_event (e : Event) : bool :=
  match e with
  | EvHeaderSet _ _ | EvHeaderDel _ | EvWriteHeader _ | EvWrite _ _ _ => true
  | _ => false
  end.

(** The line the deferred function logs. *)
Definition took_line (d : N) : Event :=
  EvLog (Printf "sent fingerprint image and took %s" [ADur d]).

(** ** The handler in three phases

    The three stretches of [HandleCapture], named so that each can be
    described by itself: choosing the interpreter (lines 30-45), wiring
    and running the command (47-54) and answering (55-75), inside the
    deferred timing (24-28). *)

(** Lines 31-34: where the interpreter of a virtual environment would be. *)
Definition venvPythonPath (goos : string) : string :=
  if bool_decide (goos = "windows")
  then filepath_Join goos ["venv"; "Scripts"; "python.exe"]
  else filepath_Join goos ["venv"; "bin"; "python3"].

(** Lines 36-39: the name to fall back on. *)
Definition defaultExec (goos : string) : string :=
  if bool_decide (goos = "windows") then "python" else "python3".

(** Lines 41-45: the probe, and the interpreter it leads to. *)
Definition resolve (W : World) : M string :=
  err <- os_Stat W (venvPythonPath (GOOS W));;
  match err with
  | None =>
      log_Println [AStr "Found virtual environment python executable at";
                   AStr (venvPythonPath (GOOS W))];;
      r <- filepath_Abs W (venvPythonPath (GOOS W));;
      ret (fst r)
  | Some _ => ret (defaultExec (GOOS W))
  end.

(** Lines 47-54: the command, its two buffers, and the run. *)
Definition wire_and_run (W : World) (pythonExec : string)
  : M (nat * nat * option error) :=
  let cmd := exec_Command pythonExec [pythonScript] in
  stdoutBuf <- new_Buffer;;
  stderrBuf <- new_Buffer;;
  let cmd := {| Path := Path cmd; Args := Args cmd;
                Stdout := Some stdoutBuf; Stderr := Stderr cmd |} in
  let cmd := {| Path := Path cmd; Args := Args cmd;
                Stdout := Stdout cmd; Stderr := Some stderrBuf |} in
  err <- Cmd_Run W cmd;;
  ret (stdoutBuf, stderrBuf, err).

(** Lines 55-75: the answer, given the two buffers and the error [Run]
    returned. *)
Definition answer (W : World) (stdoutBuf stderrBuf : nat) (err : option error)
  : M unit :=
  match err with
  | Some err =>
      log_Printf "Failed to capture fingerprint %v" [AErr err];;
      out <- ptr_String stdoutBuf;;
      log_Printf ("Python stdout:" +:+ nl +:+ "%s" +:+ nl) [AStr out];;
      errout <- ptr_String stderrBuf;;
      log_Printf ("Python stderr:" +:+ nl +:+ "%s" +:+ nl) [AStr errout];;
      errout <- ptr_String stderrBuf;;
      http_Error W ("Failed to capture fingerprint: " +:+ errout)
                 StatusInternalServerError
  | None =>
      n <- ptr_Len stdoutBuf;;
      if (n =? 0)%nat then
        log_Println [AStr "Python script returned empty output."];;
        http_Error W "No data received from Python script"
                   StatusInternalServerError
      else
        Header_Set "Content-Type" "image/png";;
        r <- io_Copy W stdoutBuf;;
        ret tt
  end.

(** Lines 24-28: the clock is read on entry and the deferred function
    logs what went by. *)
Definition timed (body : M unit) : M unit :=
  now <- time_Now;;
  defer (d <- time_Since now;;
         log_Printf "sent fingerprint image and took %s" [ADur d])
        body.

(** ** What the phases do

    Plain functions of the world that say which events a phase leaves in
    the trace and what it leaves in the response writer.  The lemmas
    below prove them equal to the monadic code. *)

(** A state that is [d] later and has seen [evs]. *)
Definition bump (s : HState) (d : N) (evs : list Event) : HState :=
  {| clock := (clock s + d)%N; trace := trace s ++ evs; rw := rw s;
     heap := heap s |}.

(** The interpreter [resolve] settles on, and what it does on the way. *)
Definition pythonExec (W : World) : string :=
  match fs_stat W (venvPythonPath (GOOS W)) with
  | None => fst (abs_result W (venvPythonPath (GOOS W)))
  | Some _ => defaultExec (GOOS W)
  end.

Definition resolve_events (W : World) : list Event :=
  EvStat (venvPythonPath (GOOS W)) (fs_stat W (venvPythonPath (GOOS W))) ::
  match fs_stat W (venvPythonPath (GOOS W)) with
  | None =>
      [EvLog (Println [AStr "Found virtual environment python executable at";
                       AStr (venvPythonPath (GOOS W))]);
       EvAbs (venvPythonPath (GOOS W))
             (fst (abs_result W (venvPythonPath (GOOS W))))
             (snd (abs_result W (venvPythonPath (GOOS W))))]
  | Some _ => []
  end.

(** The command the handler builds and wires to its two buffers, the
    first two of the store, and what becomes of it. *)
Definition command (W : World) : Cmd :=
  {| Path := pythonExec W; Args := [pythonExec W; pythonScript];
     Stdout := Some 0; Stderr := Some 1 |}.

Definition child (W : World) : ProcOutcome := proc_outcome W (command W).

Definition run_error (o : ProcOutcome) : option error :=
  match o with
  | StartFailed e => Some e
  | Exited code _ _ _ =>
      if bool_decide (code = 0%Z) then None else Some (ExitError code)
  end.

Definition stdout_of (o : ProcOutcome) : list byte :=
  match o with Exited _ out _ _ => out | StartFailed _ => [] end.

Definition stderr_of (o : ProcOutcome) : list byte :=
  match o with Exited _ _ errout _ => errout | StartFailed _ => [] end.

Definition took_of (o : ProcOutcome) : N :=
  match o with Exited _ _ _ took => took | StartFailed _ => 0%N end.

(** The store after the run: the first buffer holds what the child wrote
    to its standard output, the second what it wrote to its standard
    error. *)
Definition heap_after (o : ProcOutcome) : list Buffer :=
  [Buffer_Write Buffer_zero (stdout_of o); Buffer_Write Buffer_zero (stderr_of o)].

(** The state a [Write] of [p] leaves. *)
Definition write_state (W : World) (p : list byte) (s : HState) : HState :=
  let w := rw_commit StatusOK (rw s) in
  {| clock := (clock s + write_took W)%N;
     trace := trace s ++ [EvWrite p (fst (conn_result W p)) (snd (conn_result W p))];
     rw := {| handlerHeader := handlerHeader w;
              wroteHeader := wroteHeader w; status := status w;
              sentHeader := sentHeader w; writes := writes w ++ [p];
              delivered := delivered w ++ take (fst (conn_result W p)) p |};
     heap := heap s |}.

(** The header, the events and the response of [http.Error]. *)
Definition error_header : gmap string (list string) :=
  <["X-Content-Type-Options" := ["nosniff"]]>
    (<["Content-Type" := ["text/plain; charset=utf-8"]]>
       (delete "Content-Length" ∅)).

Definition error_body (msg : string) : list byte :=
  list_byte_of_string (msg +:+ nl).

Definition error_events (W : World) (msg : string) (code : Z) : list Event :=
  [EvHeaderDel "Content-Length";
   EvHeaderSet "Content-Type" "text/plain; charset=utf-8";
   EvHeaderSet "X-Content-Type-Options" "nosniff";
   EvWriteHeader code;
   EvWrite (error_body msg)
           (fst (conn_result W (error_body msg)))
           (snd (conn_result W (error_body msg)))].

Definition error_response (W : World) (msg : string) (code : Z) : ResponseWriter :=
  {| handlerHeader := error_header; wroteHeader := true; status := code;
     sentHeader := error_header; writes := [error_body msg];
     delivered := take (fst (conn_result W (error_body msg))) (error_body msg) |}.

(** The two messages of the handler. *)
Definition failure_msg (errout : list byte) : string :=
  "Failed to capture fingerprint: " +:+ string_of_list_byte errout.

Definition no_data_msg : string := "No data received from Python script".

(** The response that carries the image. *)
Definition image_header : gmap string (list string) :=
  <["Content-Type" := ["image/png"]]> ∅.

Definition image_response (W : World) (p : list byte) : ResponseWriter :=
  {| handlerHeader := image_header; wroteHeader := true; status := StatusOK;
     sentHeader := image_header; writes := [p];
     delivered := take (fst (conn_result W p)) p |}.

(** What [answer] does, by the outcome of the command. *)
Definition answer_events (W : World) (o : ProcOutcome) : list Event :=
  match run_error o with
  | Some e =>
      [EvLog (Printf "Failed to capture fingerprint %v" [AErr e]);
       EvLog (Printf ("Python stdout:" +:+ nl +:+ "%s" +:+ nl)
                     [AStr (string_of_list_byte (stdout_of o))]);
       EvLog (Printf ("Python stderr:" +:+ nl +:+ "%s" +:+ nl)
                     [AStr (string_of_list_byte (stderr_of o))])]
      ++ error_events W (failure_msg (stderr_of o)) StatusInternalServerError
  | None =>
      match stdout_of o with
      | [] =>
          EvLog (Println [AStr "Python script returned empty output."])
          :: error_events W no_data_msg StatusInternalServerError
      | _ :: _ =>
          [EvHeaderSet "Content-Type" "image/png";
           EvWrite (stdout_of o)
                   (fst (conn_result W (stdout_of o)))
                   (snd (conn_result W (stdout_of o)))]
      end
  end.

Definition answer_response (W : World) (o : ProcOutcome) : ResponseWriter :=
  match run_error o with
  | Some _ => error_response W (failure_msg (stderr_of o)) StatusInternalServerError
  | None =>
      match stdout_of o with
      | [] => error_response W no_data_msg StatusInternalServerError
      | _ :: _ => image_response W (stdout_of o)
      end
  end.

(** How long a request takes: the probe, the child and the write. *)
Definition elapsed (W : World) : N :=
  (stat_took W + took_of (child W) + write_took W)%N.

(** ** Worlds to run the handler in *)

Definition no_venv (p : string) : option error := Some (ErrMsg "no such file or directory").

Definition getwd_app (p : string) : string + error := inl ("/app/" +:+ p).

(** The child prints OKDATA and exits 0. *)
Definition W_ok : World :=
  {| GOOS := "linux"; fs_stat := no_venv; fs_abs := getwd_app;
     os_exec := fun _ _ => Exited 0 (list_byte_of_string "OKDATA") [] 5;
     conn_write := fun _ => WriteOk; stat_took := 1; write_took := 2 |}.

(** The child complains on its standard error and exits 1. *)
Definition W_sensor : World :=
  {| GOOS := "linux"; fs_stat := no_venv; fs_abs := getwd_app;
     os_exec := fun _ _ => Exited 1 [] (list_byte_of_string "sensor not found") 3;
     conn_write := fun _ => WriteOk; stat_took := 1; write_took := 2 |}.

(** The child exits 0 and prints nothing, with a warning on standard error. *)
Definition W_empty : World :=
  {| GOOS := "linux"; fs_stat := no_venv; fs_abs := getwd_app;
     os_exec := fun _ _ => Exited 0 [] (list_byte_of_string "warning") 3;
     conn_write := fun _ => WriteOk; stat_took := 1; write_took := 2 |}.

(** The virtual environment is there. *)
Definition W_venv : World :=
  {| GOOS := "linux"; fs_stat := fun _ => None; fs_abs := getwd_app;
     os_exec := fun _ _ => Exited 0 (list_byte_of_string "OKDATA") [] 5;
     conn_write := fun _ => WriteOk; stat_took := 1; write_took := 2 |}.

(** The virtual environment is there, the working directory is gone. *)
Definition W_nowd : World :=
  {| GOOS := "linux"; fs_stat := fun _ => None;
     fs_abs := fun _ => inr (ErrMsg "getwd: no such file or directory");
     os_exec := fun _ _ => Exited 0 (list_byte_of_string "OKDATA") [] 5;
     conn_write := fun _ => WriteOk; stat_took := 1; write_took := 2 |}.

(** The client hangs up after three bytes. *)
Definition W_hangup : World :=
  {| GOOS := "linux"; fs_stat := no_venv; fs_abs := getwd_app;
     os_exec := fun _ _ => Exited 0 (list_byte_of_string "OKDATA") [] 5;
     conn_write := fun _ => WriteErr 3 (ErrMsg "broken pipe");
     stat_took := 1; write_took := 2 |}.

(** A windows host without a virtual environment. *)
Definition W_windows : World :=
  {| GOOS := "windows"; fs_stat := no_venv; fs_abs := getwd_app;
     os_exec := fun _ _ => Exited 0 (list_byte_of_string "OKDATA") [] 5;
     conn_write := fun _ => WriteOk; stat_took := 1; write_took := 2 |}.

(** ** Kinds of outcomes and of events *)

(** The command did not run to a zero exit: it could not be started, or
    it exited with another status. *)
Definition failed (o : ProcOutcome) : Prop :=
  match o with
  | StartFailed _ => True
  | Exited code _ _ _ => code <> 0%Z
  end.

(** Events that put bytes or a status line on the connection. *)
Definition is_write_event (e : Event) : bool :=
  match e with
  | EvWriteHeader _ | EvWrite _ _ _ => true
  | _ => false
  end.

(** Events that can only come before the command is run. *)
Definition is_resolution_event (e : Event) : bool :=
  match e with
  | EvStat _ _ | EvAbs _ _ _ => true
  | EvLog (Println (AStr "Found virtual environment python executable at" :: _)) => true
  | _ => false
  end.

(** ** The server *)

(** What the client is sent: status line, header and body. *)
Record Response : Type := mkResponse {
  resp_status : Z;
  resp_header : gmap string (list string);
  resp_body : list byte
}.

Definition response_of (w : ResponseWriter) : Response :=
  {| resp_status := status w; resp_header := sentHeader w; resp_body := Body w |}.

(** All that outlives a request: the clock and what has been logged and
    done so far. *)
Record Server : Type := mkServer {
  srv_clock : N;
  srv_log : list Event
}.

(** One request: the handler runs at the server's clock, after all the
    server has done, on a response writer of its own and with no buffers
    but those it declares. *)
Definition serve (W : World) (srv : Server) : Response * Server :=
  let h := snd (HandleCapture W {| clock := srv_clock srv;
                                   trace := srv_log srv;
                                   rw := newResponse;
                                   heap := [] |}) in
  (response_of (rw h), {| srv_clock := clock h; srv_log := trace h |}).

(** Requests one after the other, each in the world it meets. *)
Fixpoint serve_all (Ws : list World) (srv : Server) : list Response * Server :=
  match Ws with
  | [] => ([], srv)
  | W :: Ws' =>
      let '(r, srv') := serve W srv in
      let '(rs, srv'') := serve_all Ws' srv' in
      (r :: rs, srv'')
  end.

(** The outcome of the command of the last request served. *)
Definition last_outcome (srv : Server) : option ProcOutcome :=
  last (outcomes (srv_log srv)).

(** Same start or exit result, same standard output, same standard error. *)
Definition same_outcome (o1 o2 : ProcOutcome) : Prop :=
  match o1, o2 with
  | StartFailed e1, StartFailed e2 => e1 = e2
  | Exited c1 out1 err1 _, Exited c2 out2 err2 _ =>
      c1 = c2 /\ out1 = out2 /\ err1 = err2
  | _, _ => False
  end.

(** ** More worlds and observations *)

(** The calls of [filepath.Abs]: the path asked about, and what came back. *)
Definition abs_calls (tr : list Event) : list (string * string * option error) :=
  omap (fun e => match e with EvAbs p q err => Some (p, q, err) | _ => None end) tr.

(** The line logged when the probe finds the virtual environment. *)
Definition found_line (p : string) : LogEntry :=
  Println [AStr "Found virtual environment python executable at"; AStr p].

(** The child prints some output, then exits 2 without a word on its
    standard error. *)
Definition W_partial : World :=
  {| GOOS := "linux"; fs_stat := no_venv; fs_abs := getwd_app;
     os_exec := fun _ _ => Exited 2 (list_byte_of_string "PARTIAL") [] 4;
     conn_write := fun _ => WriteOk; stat_took := 1; write_took := 2 |}.

(** The child fails and the client is gone before the error is written. *)
Definition W_sensor_hangup : World :=
  {| GOOS := "linux"; fs_stat := no_venv; fs_abs := getwd_app;
     os_exec := fun _ _ => Exited 1 [] (list_byte_of_string "sensor not found") 3;
     conn_write := fun _ => WriteErr 0 (ErrMsg "broken pipe");
     stat_took := 1; write_took := 2 |}.

(** ** The build script (src/unnamed/part_000) *)

(** What the script does, in order: an [echo] of a line, or a command
    run, each with the exit status it returned. *)
Inductive ShEvent : Type :=
| ShEcho (line : string) (st : Z)
| ShRun (argv : list string) (st : Z).

(** A script goes on with a value or leaves by [exit]. *)
Inductive ShRes (A : Type) : Type :=
| ShVal (a : A)
| ShExit (code : Z).
Arguments ShVal {A} a.
Arguments ShExit {A} code.

Definition Sh (A : Type) : Type := list ShEvent -> ShRes A * list ShEvent.

Definition sh_bind {A B} (c : Sh A) (k : A -> Sh B) : Sh B :=
  fun tr =>
    match c tr with
    | (ShVal a, tr') => k a tr'
    | (ShExit code, tr') => (ShExit code, tr')
    end.

Declare Scope sh_scope.
Delimit Scope sh_scope with sh.
Bind Scope sh_scope with Sh.

Notation "x <- c ;; k" := (sh_bind c (fun x => k))
  (at level 100, c at next level, right associativity) : sh_scope.
Notation "c ;; k" := (sh_bind c (fun _ => k))
  (at level 100, right associativity) : sh_scope.

(** [echo]: prints its line.  Its status is 0 unless the line could not
    be written (standard output closed, device full); [echo k] is the
    status of the [echo] that comes after [k] steps of the script. *)
Definition sh_echo (echo : nat -> Z) (line : string) : Sh Z :=
  fun tr => (ShVal (echo (length tr)),
             (tr ++ [ShEcho line (echo (length tr))])%list).

(** An external command: [run argv] is the status it exits with. *)
Definition sh_run (run : list string -> Z) (argv : list string) : Sh Z :=
  fun tr => (ShVal (run argv), (tr ++ [ShRun argv (run argv)])%list).

Definition sh_exit {A} (code : Z) : Sh A := fun tr => (ShExit code, tr).

Definition LINUX_OUTPUT : string := "build/fingerprint-server-linux".
Definition WINDOWS_OUTPUT : string := "build/fingerprint-server-windows.exe".
Definition SOURCE_FILE : string := "main.go".

(** The three commands of the script, as the shell splits them. *)
Definition build_linux_cmd : list string :=
  ["go"; "build"; "-installsuffix"; "cgo"; "-ldflags=-w -s";
   "-o"; LINUX_OUTPUT; SOURCE_FILE].

Definition build_windows_cmd : list string :=
  ["env"; "GOOS=windows"; "GOARCH=amd64";
   "go"; "build"; "-a"; "-installsuffix"; "cgo"; "-ldflags=-w -s";
   "-o"; WINDOWS_OUTPUT; SOURCE_FILE].

Definition copy_cmd : list string := ["cp"; "capture.py"; "build/capture.py"].

(** The script, line by line; [$?] is the status of the command just
    before the test.  It returns the status of its last command. *)
Definition build_script (run : list string -> Z) (echo : nat -> Z) : Sh Z :=
  (sh_echo echo "Starting build process...";;
   sh_echo echo "Compiling for Linux...";;
   st <- sh_run run build_linux_cmd;;
   (if (st =? 0)%Z
    then sh_echo echo ("Successfully compiled for Linux: " +:+ LINUX_OUTPUT)
    else (sh_echo echo "Error: Failed to compile for Linux.";; sh_exit 1));;
   sh_echo echo "";;
   sh_echo echo "Compiling for Windows...";;
   st <- sh_run run build_windows_cmd;;
   (if (st =? 0)%Z
    then sh_echo echo ("Successfully compiled for Windows: " +:+ WINDOWS_OUTPUT)
    else (sh_echo echo "Error: Failed to compile for Windows.";; sh_exit 1));;
   sh_run run copy_cmd;;
   sh_echo echo "";;
   sh_echo echo "Build process complete.";;
   sh_echo echo "Executables are located in the current directory.")%sh.

(** The status the script exits with, and what it did. *)
Definition build_status (run : list string -> Z) (echo : nat -> Z) : Z :=
  match fst (build_script run echo []) with
  | ShVal st => st
  | ShExit code => code
  end.

Definition build_trace (run : list string -> Z) (echo : nat -> Z) : list ShEvent :=
  snd (build_script run echo []).

(** The commands a trace ran, and the lines it printed. *)
Definition sh_commands (tr : list ShEvent) : list (list string) :=
  omap (fun e => match e with ShRun argv _ => Some argv | _ => None end) tr.

Definition sh_lines (tr : list ShEvent) : list string :=
  omap (fun e => match e with ShEcho l _ => Some l | _ => None end) tr.

(** Build environments: every command succeeds; the first build fails;
    the second build fails; only the copy fails. *)
Definition run_all_ok (argv : list string) : Z := 0%Z.

Definition run_linux_fails (argv : list string) : Z :=
  if bool_decide (argv = build_linux_cmd) then 2%Z else 0%Z.

Definition run_windows_fails (argv : list string) : Z :=
  if bool_decide (argv = build_windows_cmd) then 1%Z else 0%Z.

Definition run_copy_fails (argv : list string) : Z :=
  if bool_decide (argv = copy_cmd) then 1%Z else 0%Z.

(** Every [echo] gets its line out; none does. *)
Definition echo_ok (k : nat) : Z := 0%Z.

Definition echo_closed (k : nat) : Z := 1%Z.

(** * The handler, phase by phase *)

(** After the command has run both sides answer alike; they part only in
    how the results are taken apart. *)
Ltac phases_tail :=
  match goal with
  | |- context [Cmd_Run ?W ?c ?s] =>
      destruct (Cmd_Run W c s) as [[[e'|]|msg] s1];
      cbv beta iota; cbn [fst snd]; [reflexivity | | reflexivity]
  end;
  unfold ptr_Len, deref, bind at 1 2, ret; cbv beta iota;
  match goal with
  | |- context [(Buffer_Len ?b =? 0)%nat] =>
      destruct (Buffer_Len b =? 0)%nat; [reflexivity|]
  end;
  match goal with
  | |- context [Header_Set ?k ?v ?s] =>
      destruct (Header_Set k v s) as [[[]|msg] s2]; [|reflexivity]
  end;
  match goal with
  | |- context [io_Copy ?W ?b ?s] =>
      destruct (io_Copy W b s) as [[[n [e''|]]|msg] s3]; reflexivity
  end.

(** [HandleCapture] is its three phases, one after the other, under the
    deferred timing. *)
Lemma HandleCapture_phases (W : World) (s : HState) :
  HandleCapture W s =
  timed (pythonExec <- resolve W;;
         r <- wire_and_run W pythonExec;;
         answer W (fst (fst r)) (snd (fst r)) (snd r)) s.
Proof.
  unfold HandleCapture, timed, resolve, wire_and_run, answer, bind, defer,
    time_Now.
  unfold os_Stat, new_Buffer, bind, sleep, emit, ret.
  fold (venvPythonPath (GOOS W)). fold (defaultExec (GOOS W)).
  cbv beta iota zeta.
  destruct (fs_stat W (venvPythonPath (GOOS W))) as [e|].
  - phases_tail.
  - unfold log_Println, filepath_Abs, bind, emit, ret. cbv beta iota zeta.
    destruct (abs_result W (venvPythonPath (GOOS W))) as [p e]; cbn [fst snd].
    phases_tail.
Qed.

(** Choosing the interpreter costs the probe and leaves [resolve_events]. *)
Lemma resolve_spec (W : World) (s : HState) :
  resolve W s = (Val (pythonExec W), bump s (stat_took W) (resolve_events W)).
Proof.
  unfold resolve, pythonExec, resolve_events, bump, os_Stat, log_Println,
    filepath_Abs, bind, sleep, emit, ret.
  cbv beta iota zeta. cbn [clock trace rw heap].
  destruct (fs_stat W (venvPythonPath (GOOS W))) as [e|].
  - reflexivity.
  - cbn [clock trace rw heap]. rewrite <- !app_assoc. reflexivity.
Qed.

(** Wiring and running the command, for a handler that has declared no
    buffers before: the two buffers are the first two of the store, the
    command is [command W] when the interpreter is the resolved one, and
    each stream of the child ends up in its own buffer. *)
Lemma wire_and_run_spec (W : World) (s : HState) :
  heap s = [] ->
  wire_and_run W (pythonExec W) s =
    (Val (0, 1, run_error (child W)),
     {| clock := (clock s + took_of (child W))%N;
        trace := trace s ++ [EvRun (command W); EvChild (child W)];
        rw := rw s;
        heap := heap_after (child W) |}).
Proof.
  destruct s as [c tr w hp]. cbn [heap]. intros ->.
  unfold wire_and_run, Cmd_Run, Writer_Write, new_Buffer, deref, assign,
    bind, sleep, emit, ret, exec_Command.
  cbn [clock trace rw heap Path Args Stdout Stderr length app].
  fold (command W). fold (child W). unfold heap_after.
  destruct (child W) as [e|code out errout took].
  - cbn [clock trace rw heap run_error took_of stdout_of stderr_of].
    rewrite <- !app_assoc, N.add_0_r. reflexivity.
  - cbn [clock trace rw heap run_error took_of stdout_of stderr_of].
    rewrite <- !app_assoc. reflexivity.
Qed.

Lemma Buffer_Len_Bytes (b : Buffer) : Buffer_Len b = length (Buffer_Bytes b).
Proof. unfold Buffer_Len, Buffer_Bytes. symmetry. apply length_drop. Qed.

Lemma conn_result_le (W : World) (p : list byte) :
  fst (conn_result W p) <= length p.
Proof.
  unfold conn_result. destruct (conn_write W p) as [|n e]; cbn [fst]; lia.
Qed.

Lemma Write_spec (W : World) (p : list byte) (s : HState) :
  Write W p s = (Val (conn_result W p), write_state W p s).
Proof. reflexivity. Qed.

(** A copy of a non-empty buffer is one [Write] of its bytes; it returns,
    and only that buffer changes in the store. *)
Lemma io_Copy_spec (W : World) (src : nat) (s : HState) :
  Buffer_Len (default Buffer_zero (heap s !! src)) <> 0 ->
  exists r b',
    io_Copy W src s =
      (Val r,
       {| clock := clock (write_state W (Buffer_Bytes (default Buffer_zero (heap s !! src))) s);
          trace := trace (write_state W (Buffer_Bytes (default Buffer_zero (heap s !! src))) s);
          rw := rw (write_state W (Buffer_Bytes (default Buffer_zero (heap s !! src))) s);
          heap := <[src := b']> (heap s) |}).
Proof.
  intros Hlen. unfold io_Copy, deref, bind at 1. cbv beta iota.
  set (b := default Buffer_zero (heap s !! src)) in *.
  unfold Buffer_WriteTo. cbv zeta.
  destruct (Nat.ltb_spec 0 (Buffer_Len b)) as [_|H0]; [|lia].
  unfold bind at 2. unfold bind at 1. rewrite Write_spec.
  pose proof (conn_result_le W (Buffer_Bytes b)) as Hle.
  rewrite <- Buffer_Len_Bytes in Hle.
  destruct (conn_result W (Buffer_Bytes b)) as [m e]. cbn [fst] in Hle.
  destruct (Nat.ltb_spec (Buffer_Len b) m) as [Hlt|_]; [lia|].
  destruct e as [e|].
  - eexists _, _. reflexivity.
  - destruct (negb (m =? Buffer_Len b)%nat); eexists _, _; reflexivity.
Qed.

(** [http.Error] on a response writer nothing was written to. *)
Lemma http_Error_spec (W : World) (msg : string) (code : Z) (s : HState) :
  rw s = newResponse ->
  http_Error W msg code s =
    (Val tt, {| clock := (clock s + write_took W)%N;
                trace := trace s ++ error_events W msg code;
                rw := error_response W msg code;
                heap := heap s |}).
Proof.
  destruct s as [c tr w hp]. cbn [rw]. intros ->.
  unfold http_Error, fmt_Fprintln, Header_Del, Header_Set, WriteHeader.
  unfold bind, emit, get_rw, put_rw, ret.
  cbn [clock trace rw heap]. rewrite Write_spec.
  unfold write_state, rw_commit, newResponse, error_response, error_events.
  cbn [clock trace rw heap handlerHeader wroteHeader status sentHeader writes
       delivered app].
  fold (error_body msg). rewrite <- !app_assoc. reflexivity.
Qed.

(** Answering, given the two buffers as the run left them.  The second
    buffer is left alone; the first one too unless it is copied to the
    response. *)
Lemma answer_spec (W : World) (o : ProcOutcome) (s : HState) :
  rw s = newResponse ->
  heap s = heap_after o ->
  exists b',
    answer W 0 1 (run_error o) s =
      (Val tt, {| clock := (clock s + write_took W)%N;
                  trace := trace s ++ answer_events W o;
                  rw := answer_response W o;
                  heap := [b'; Buffer_Write Buffer_zero (stderr_of o)] |}) /\
    (status (answer_response W o) <> 200%Z ->
     b' = Buffer_Write Buffer_zero (stdout_of o)).
Proof.
  destruct s as [c tr w hp]. cbn [rw heap]. intros -> ->.
  unfold answer, answer_events, answer_response, heap_after.
  destruct (run_error o) as [e|].
  - exists (Buffer_Write Buffer_zero (stdout_of o)). split; [|reflexivity].
    unfold log_Printf, ptr_String, deref, bind, emit, ret.
    cbn [clock trace rw heap lookup list_lookup default]. unfold id.
    rewrite http_Error_spec by reflexivity.
    unfold Buffer_String.
    change (Buffer_Bytes (Buffer_Write Buffer_zero (stdout_of o)))
      with (stdout_of o).
    change (Buffer_Bytes (Buffer_Write Buffer_zero (stderr_of o)))
      with (stderr_of o).
    fold (failure_msg (stderr_of o)).
    cbn [clock trace rw heap]. rewrite <- !app_assoc. reflexivity.
  - unfold ptr_Len, deref. unfold bind at 1 2. unfold ret at 1.
    cbn [heap lookup list_lookup default]. unfold id.
    rewrite Buffer_Len_Bytes.
    change (Buffer_Bytes (Buffer_Write Buffer_zero (stdout_of o)))
      with (stdout_of o).
    destruct (stdout_of o) as [|b out] eqn:Ho.
    + exists (Buffer_Write Buffer_zero []). split; [|reflexivity].
      cbn [length Nat.eqb].
      unfold log_Println, bind, emit. cbn [clock trace rw heap].
      rewrite http_Error_spec by reflexivity.
      cbn [clock trace rw heap]. rewrite <- !app_assoc. reflexivity.
    + cbn [length Nat.eqb].
      unfold bind at 1. unfold Header_Set, bind, emit, get_rw, put_rw.
      cbn [clock trace rw heap].
      match goal with
      | |- context [io_Copy W 0 ?s'] =>
          destruct (io_Copy_spec W 0 s') as (r & b' & Hr)
      end.
      { cbn [heap lookup list_lookup default]. unfold id.
        rewrite Buffer_Len_Bytes. discriminate. }
      exists b'. split.
      * rewrite Hr. unfold ret, write_state, rw_commit, image_response, newResponse.
        cbn [clock trace rw heap handlerHeader wroteHeader status sentHeader
             writes delivered app lookup list_lookup default insert list_insert].
        unfold id.
        change (Buffer_Bytes (Buffer_Write Buffer_zero (b :: out)))
          with (b :: out).
        rewrite <- !app_assoc. reflexivity.
      * cbn [image_response status]. unfold StatusOK. intros H. contradiction.
Qed.

(** The deferred function adds its line after the body, whatever the
    body came to. *)
Lemma timed_spec (body : M unit) (s : HState) :
  timed body s =
    (fst (body s),
     {| clock := clock (snd (body s));
        trace := trace (snd (body s))
                 ++ [took_line (clock (snd (body s)) - clock s)];
        rw := rw (snd (body s));
        heap := heap (snd (body s)) |}).
Proof.
  unfold timed, defer, time_Now, time_Since, log_Printf, bind, emit, took_line.
  destruct (body s) as [r s']. reflexivity.
Qed.

(** The whole handler, entered at time [t] after the events [tr] with a
    response writer nothing was written to and no buffers declared: it
    returns, and leaves this clock, this trace, this response and its
    two buffers. *)
Lemma HandleCapture_spec (W : World) (t : N) (tr : list Event) :
  exists b',
    HandleCapture W {| clock := t; trace := tr; rw := newResponse; heap := [] |} =
      (Val tt,
       {| clock := (t + elapsed W)%N;
          trace := tr
                   ++ resolve_events W
                   ++ [EvRun (command W); EvChild (child W)]
                   ++ answer_events W (child W)
                   ++ [took_line (elapsed W)];
          rw := answer_response W (child W);
          heap := [b'; Buffer_Write Buffer_zero (stderr_of (child W))] |}) /\
    (status (answer_response W (child W)) <> 200%Z ->
     b' = Buffer_Write Buffer_zero (stdout_of (child W))).
Proof.
  set (s := {| clock := t; trace := tr; rw := newResponse; heap := [] |}).
  destruct (answer_spec W (child W)
              {| clock := (t + stat_took W + took_of (child W))%N;
                 trace := (tr ++ resolve_events W)
                          ++ [EvRun (command W); EvChild (child W)];
                 rw := newResponse;
                 heap := heap_after (child W) |})
    as (b' & Hans & Hb'); [reflexivity|reflexivity|].
  exists b'. split; [|exact Hb'].
  assert (Hbody :
    (pythonExec <- resolve W;;
     r <- wire_and_run W pythonExec;;
     answer W (fst (fst r)) (snd (fst r)) (snd r)) s =
    (Val tt,
     {| clock := (t + stat_took W + took_of (child W) + write_took W)%N;
        trace := tr
                 ++ resolve_events W
                 ++ [EvRun (command W); EvChild (child W)]
                 ++ answer_events W (child W);
        rw := answer_response W (child W);
        heap := [b'; Buffer_Write Buffer_zero (stderr_of (child W))] |})).
  { unfold bind. rewrite resolve_spec.
    rewrite wire_and_run_spec by reflexivity.
    subst s. cbn [fst snd clock trace rw heap bump].
    rewrite Hans. cbn [clock trace].
    rewrite <- !app_assoc. reflexivity. }
  rewrite HandleCapture_phases, timed_spec, Hbody.
  subst s. cbn [fst snd clock trace rw heap]. unfold elapsed.
  rewrite <- !app_assoc.
  replace (t + stat_took W + took_of (child W) + write_took W - t)%N
    with (stat_took W + took_of (child W) + write_took W)%N by lia.
  replace (t + stat_took W + took_of (child W) + write_took W)%N
    with (t + (stat_took W + took_of (child W) + write_took W))%N by lia.
  reflexivity.
Qed.

Lemma run_eq (W : World) (t : N) :
  exists b',
    run W t =
      {| clock := (t + elapsed W)%N;
         trace := resolve_events W
                  ++ [EvRun (command W); EvChild (child W)]
                  ++ answer_events W (child W)
                  ++ [took_line (elapsed W)];
         rw := answer_response W (child W);
         heap := [b'; Buffer_Write Buffer_zero (stderr_of (child W))] |} /\
    (status (answer_response W (child W)) <> 200%Z ->
     b' = Buffer_Write Buffer_zero (stdout_of (child W))).
Proof.
  destruct (HandleCapture_spec W t []) as (b' & H & Hb').
  exists b'. split; [|exact Hb'].
  unfold run, start. rewrite H. reflexivity.
Qed.

Lemma result_eq (W : World) (t : N) : result W t = Val tt.
Proof.
  destruct (HandleCapture_spec W t []) as (b' & H & _).
  unfold result, start. rewrite H. reflexivity.
Qed.

Lemma trace_run (W : World) (t : N) :
  trace (run W t) =
    (resolve_events W
     ++ [EvRun (command W); EvChild (child W)]
     ++ answer_events W (child W)
     ++ [took_line (elapsed W)])%list.
Proof. destruct (run_eq W t) as (b' & H & _). rewrite H. reflexivity. Qed.

Lemma rw_run (W : World) (t : N) : rw (run W t) = answer_response W (child W).
Proof. destruct (run_eq W t) as (b' & H & _). rewrite H. reflexivity. Qed.

Lemma clock_run (W : World) (t : N) : clock (run W t) = (t + elapsed W)%N.
Proof. destruct (run_eq W t) as (b' & H & _). rewrite H. reflexivity. Qed.

(** ** What the observations see *)

(** There are three kinds of answers; an observation is read off each. *)
Ltac by_outcome o :=
  unfold answer_events, error_events;
  destruct (run_error o); [reflexivity|];
  destruct (stdout_of o); reflexivity.

Lemma outcomes_resolve (W : World) : outcomes (resolve_events W) = [].
Proof.
  unfold resolve_events.
  destruct (fs_stat W (venvPythonPath (GOOS W))); reflexivity.
Qed.

Lemma outcomes_answer (W : World) (o : ProcOutcome) :
  outcomes (answer_events W o) = [].
Proof. by_outcome o. Qed.

Lemma runs_resolve (W : World) : runs (resolve_events W) = [].
Proof.
  unfold resolve_events.
  destruct (fs_stat W (venvPythonPath (GOOS W))); reflexivity.
Qed.

Lemma runs_answer (W : World) (o : ProcOutcome) : runs (answer_events W o) = [].
Proof. by_outcome o. Qed.

Lemma stats_resolve (W : World) :
  stats (resolve_events W) =
    [(venvPythonPath (GOOS W), fs_stat W (venvPythonPath (GOOS W)))].
Proof.
  unfold resolve_events.
  destruct (fs_stat W (venvPythonPath (GOOS W))); reflexivity.
Qed.

Lemma stats_answer (W : World) (o : ProcOutcome) : stats (answer_events W o) = [].
Proof. by_outcome o. Qed.

Lemma write_calls_resolve (W : World) : write_calls (resolve_events W) = [].
Proof.
  unfold resolve_events.
  destruct (fs_stat W (venvPythonPath (GOOS W))); reflexivity.
Qed.

Lemma outcomes_run (W : World) (t : N) : outcomes (trace (run W t)) = [child W].
Proof.
  rewrite trace_run. unfold outcomes. rewrite !omap_app.
  fold (outcomes (resolve_events W)). fold (outcomes (answer_events W (child W))).
  rewrite outcomes_resolve, outcomes_answer. reflexivity.
Qed.

Lemma runs_run (W : World) (t : N) :
  runs (trace (run W t)) = [(pythonExec W, [pythonScript])].
Proof.
  rewrite trace_run. unfold runs. rewrite !omap_app.
  fold (runs (resolve_events W)). fold (runs (answer_events W (child W))).
  rewrite runs_resolve, runs_answer. reflexivity.
Qed.

Lemma stats_run (W : World) (t : N) :
  stats (trace (run W t)) =
    [(venvPythonPath (GOOS W), fs_stat W (venvPythonPath (GOOS W)))].
Proof.
  rewrite trace_run. unfold stats. rewrite !omap_app.
  fold (stats (resolve_events W)). fold (stats (answer_events W (child W))).
  rewrite stats_resolve, stats_answer. reflexivity.
Qed.

Lemma write_calls_run (W : World) (t : N) :
  write_calls (trace (run W t)) = write_calls (answer_events W (child W)).
Proof.
  rewrite trace_run. unfold write_calls. rewrite !omap_app.
  fold (write_calls (resolve_events W)).
  rewrite write_calls_resolve. cbn [omap list_omap app took_line].
  rewrite app_nil_r. reflexivity.
Qed.

(** ** What the responses hold *)

Lemma list_byte_of_string_app (a b : string) :
  list_byte_of_string (a +:+ b) = (list_byte_of_string a ++ list_byte_of_string b)%list.
Proof.
  induction a as [|c a IH]; [reflexivity|].
  change (byte_of_ascii c :: list_byte_of_string (a +:+ b) =
          byte_of_ascii c :: (list_byte_of_string a ++ list_byte_of_string b)%list).
  f_equal. exact IH.
Qed.

Lemma error_body_bytes (msg : string) :
  error_body msg = (list_byte_of_string msg ++ [x0a])%list.
Proof. unfold error_body. rewrite list_byte_of_string_app. reflexivity. Qed.

Lemma Header_Get_image : Header_Get image_header "Content-Type" = "image/png".
Proof. unfold Header_Get, image_header. rewrite lookup_insert_eq. reflexivity. Qed.

Lemma Header_Get_error :
  Header_Get error_header "Content-Type" = "text/plain; charset=utf-8".
Proof.
  unfold Header_Get, error_header.
  rewrite lookup_insert_ne by discriminate.
  rewrite lookup_insert_eq. reflexivity.
Qed.

Lemma Body_image (W : World) (p : list byte) : Body (image_response W p) = p.
Proof. unfold Body, image_response. cbn [writes concat]. apply app_nil_r. Qed.

Lemma Body_error (W : World) (msg : string) (code : Z) :
  Body (error_response W msg code) = (list_byte_of_string msg ++ [x0a])%list.
Proof.
  unfold Body, error_response. cbn [writes concat].
  rewrite app_nil_r. apply error_body_bytes.
Qed.

Lemma conn_result_ok (W : World) (p : list byte) :
  snd (conn_result W p) = None -> fst (conn_result W p) = length p.
Proof.
  unfold conn_result. destruct (conn_write W p); [reflexivity|discriminate].
Qed.

(** The response, by the outcome of the command. *)
Lemma answer_response_failed (W : World) (o : ProcOutcome) (e : error) :
  run_error o = Some e ->
  answer_response W o =
    error_response W (failure_msg (stderr_of o)) StatusInternalServerError.
Proof. intros H. unfold answer_response. rewrite H. reflexivity. Qed.

Lemma answer_response_empty (W : World) (o : ProcOutcome) :
  run_error o = None -> stdout_of o = [] ->
  answer_response W o = error_response W no_data_msg StatusInternalServerError.
Proof. intros H1 H2. unfold answer_response. rewrite H1, H2. reflexivity. Qed.

Lemma answer_response_image (W : World) (o : ProcOutcome) :
  run_error o = None -> stdout_of o <> [] ->
  answer_response W o = image_response W (stdout_of o).
Proof.
  intros H1 H2. unfold answer_response. rewrite H1.
  destruct (stdout_of o); [contradiction|reflexivity].
Qed.

Lemma answer_events_image (W : World) (o : ProcOutcome) :
  run_error o = None -> stdout_of o <> [] ->
  answer_events W o =
    [EvHeaderSet "Content-Type" "image/png";
     EvWrite (stdout_of o)
             (fst (conn_result W (stdout_of o)))
             (snd (conn_result W (stdout_of o)))].
Proof.
  intros H1 H2. unfold answer_events. rewrite H1.
  destruct (stdout_of o); [contradiction|reflexivity].
Qed.

Lemma venvPythonPath_eq (goos : string) :
  venvPythonPath goos =
    if bool_decide (goos = "windows")
    then "venv\Scripts\python.exe" else "venv/bin/python3".
Proof.
  unfold venvPythonPath, filepath_Join, Separator.
  destruct (bool_decide (goos = "windows")); vm_compute; reflexivity.
Qed.

Lemma failed_run_error (o : ProcOutcome) :
  failed o -> exists e, run_error o = Some e.
Proof.
  destruct o as [e|code out errout took]; cbn [failed run_error].
  - intros _. exists e. reflexivity.
  - intros Hc. exists (ExitError code).
    rewrite bool_decide_eq_false_2 by exact Hc. reflexivity.
Qed.

Lemma logs_run_failed (W : World) (t : N) (e : error) :
  run_error (child W) = Some e ->
  logs (trace (run W t)) =
    (logs (resolve_events W) ++
     [Printf "Failed to capture fingerprint %v" [AErr e];
      Printf ("Python stdout:" +:+ nl +:+ "%s" +:+ nl)
             [AStr (string_of_list_byte (stdout_of (child W)))];
      Printf ("Python stderr:" +:+ nl +:+ "%s" +:+ nl)
             [AStr (string_of_list_byte (stderr_of (child W)))];
      Printf "sent fingerprint image and took %s" [ADur (elapsed W)]])%list.
Proof.
  intros He. rewrite trace_run. unfold logs at 1. rewrite !omap_app.
  fold (logs (resolve_events W)). f_equal.
  unfold answer_events. rewrite He. reflexivity.
Qed.

Lemma child_no_command (W : World) :
  pythonExec W = "" -> child W = StartFailed ErrNoCommand.
Proof.
  intros H. unfold child, command, proc_outcome, exec_Command.
  cbn [Path]. rewrite H. reflexivity.
Qed.

Lemma resolve_events_resolution (W : World) :
  Forall (fun e => is_resolution_event e = true) (resolve_events W).
Proof.
  unfold resolve_events.
  destruct (fs_stat W (venvPythonPath (GOOS W))); repeat constructor.
Qed.

Lemma resolution_not_response (e : Event) :
  is_resolution_event e = true -> is_response_event e = false.
Proof. destruct e; try discriminate; reflexivity. Qed.

Lemma resolution_not_write (e : Event) :
  is_resolution_event e = true -> is_write_event e = false.
Proof. destruct e; try discriminate; reflexivity. Qed.

Lemma resolution_not_took (e : Event) :
  is_resolution_event e = true -> forall d, e <> took_line d.
Proof.
  destruct e as [[f a|a]| | | | | | | |]; discriminate.
Qed.

Lemma status_200_image (W : World) (o : ProcOutcome) :
  status (answer_response W o) = 200%Z ->
  run_error o = None /\ stdout_of o <> [].
Proof.
  unfold answer_response.
  destruct (run_error o); [discriminate|].
  destruct (stdout_of o); [discriminate|].
  intros _. split; [reflexivity|discriminate].
Qed.

Lemma elem_write_calls (tr : list Event) (p : list byte) (n : nat) (err : option error) :
  EvWrite p n err ∈ tr -> (p, n, err) ∈ write_calls tr.
Proof.
  intros H. unfold write_calls. apply list_elem_of_omap.
  exists (EvWrite p n err). split; [exact H|reflexivity].
Qed.

Lemma answer_events_not_took (W : World) (o : ProcOutcome) :
  Forall (fun e => forall d, e <> took_line d) (answer_events W o).
Proof.
  unfold answer_events, error_events.
  destruct (run_error o); [repeat constructor; discriminate|].
  destruct (stdout_of o); repeat constructor; discriminate.
Qed.

(** The two buffers when the handler is left: the second still holds
    the child's standard error, and the first its standard output unless
    the image was copied out of it. *)
Lemma heap_run (W : World) (t : N) :
  length (heap (run W t)) = 2 /\
  Buffer_Bytes <$> heap (run W t) !! 1 = Some (stderr_of (child W)) /\
  (status (rw (run W t)) <> 200%Z ->
   Buffer_Bytes <$> heap (run W t) !! 0 = Some (stdout_of (child W))).
Proof.
  destruct (run_eq W t) as (b' & H & Hb'). rewrite H. cbn [heap rw].
  split; [reflexivity|]. split; [reflexivity|].
  intros Hst. rewrite (Hb' Hst). reflexivity.
Qed.

Lemma commands_run (W : World) (t : N) :
  commands (trace (run W t)) = [command W].
Proof.
  rewrite trace_run. unfold commands. rewrite !omap_app.
  assert (Hr : omap (fun e => match e with EvRun c => Some c | _ => None end)
                 (resolve_events W) = []).
  { unfold resolve_events.
    destruct (fs_stat W (venvPythonPath (GOOS W))); reflexivity. }
  assert (Ha : omap (fun e => match e with EvRun c => Some c | _ => None end)
                 (answer_events W (child W)) = []).
  { by_outcome (child W). }
  rewrite Hr, Ha. reflexivity.
Qed.

(** What the child did is what the operating system makes of the
    command, unless the command has no name. *)
Lemma child_os_exec (W : World) :
  (pythonExec W <> "" ->
   child W = os_exec W (pythonExec W) [pythonExec W; "capture.py"]) /\
  (pythonExec W = "" -> child W = StartFailed ErrNoCommand).
Proof.
  unfold child, proc_outcome, command. cbn [Path Args].
  destruct (bool_decide_reflect (pythonExec W = "")) as [H|H].
  - split; [contradiction|reflexivity].
  - split; [reflexivity|contradiction].
Qed.

Lemma serve_eq (W : World) (srv : Server) :
  serve W srv =
    (response_of (answer_response W (child W)),
     {| srv_clock := (srv_clock srv + elapsed W)%N;
        srv_log := srv_log srv ++ trace (run W (srv_clock srv)) |}).
Proof.
  destruct (HandleCapture_spec W (srv_clock srv) (srv_log srv)) as (b' & H & _).
  unfold serve. rewrite H, trace_run.
  cbn [snd clock trace rw]. reflexivity.
Qed.

Lemma response_serve (W : World) (srv : Server) :
  fst (serve W srv) = response_of (answer_response W (child W)).
Proof. rewrite serve_eq. reflexivity. Qed.

Lemma last_outcome_serve (W : World) (srv : Server) :
  last_outcome (snd (serve W srv)) = Some (child W).
Proof.
  rewrite serve_eq. unfold last_outcome. cbn [snd srv_log].
  unfold outcomes. rewrite omap_app.
  fold (outcomes (trace (run W (srv_clock srv)))).
  rewrite outcomes_run. apply last_snoc.
Qed.

Lemma response_of_answer (W1 W2 : World) (o1 o2 : ProcOutcome) :
  same_outcome o1 o2 ->
  response_of (answer_response W1 o1) = response_of (answer_response W2 o2).
Proof.
  destruct o1 as [e1|c1 out1 err1 t1], o2 as [e2|c2 out2 err2 t2];
    cbn [same_outcome]; try contradiction.
  - intros ->. reflexivity.
  - intros (-> & -> & ->). unfold answer_response.
    cbn [run_error stdout_of stderr_of].
    destruct (bool_decide (c2 = 0%Z)); [|reflexivity].
    destruct out2; reflexivity.
Qed.

(** * The specification, property by property *)

(** C1.  When the child exits 0 having written N > 0 bytes to its standard
    output, the handler answers with status 200 and Content-Type image/png
    and writes exactly those bytes as the body: one [Write] that carries
    the whole buffer, nothing added, nothing left out.  What the
    connection takes of it is all of it whenever that [Write] reports no
    error. *)
Theorem capture_success (W : World) (t : N) (out errout : list byte) (took : N) :
  outcomes (trace (run W t)) = [Exited 0 out errout took] ->
  0 < length out ->
  status (rw (run W t)) = 200%Z /\
  Header_Get (sentHeader (rw (run W t))) "Content-Type" = "image/png" /\
  Body (rw (run W t)) = out /\
  writes (rw (run W t)) = [out] /\
  exists n err,
    write_calls (trace (run W t)) = [(out, n, err)] /\
    delivered (rw (run W t)) = take n out /\
    (err = None -> delivered (rw (run W t)) = out).
Proof.
  intros Ho Hlen. rewrite outcomes_run in Ho.
  assert (Hc : child W = Exited 0 out errout took) by congruence.
  assert (Herr : run_error (child W) = None) by (rewrite Hc; reflexivity).
  assert (Hout : stdout_of (child W) = out) by (rewrite Hc; reflexivity).
  assert (Hne : stdout_of (child W) <> []).
  { rewrite Hout. intros ->. cbn in Hlen. lia. }
  rewrite write_calls_run, rw_run.
  rewrite answer_response_image, answer_events_image by assumption.
  rewrite Hout, Body_image. cbn [image_response status sentHeader writes delivered].
  split; [reflexivity|]. split; [apply Header_Get_image|].
  split; [reflexivity|]. split; [reflexivity|].
  exists (fst (conn_result W out)), (snd (conn_result W out)).
  split; [reflexivity|]. split; [reflexivity|].
  intros Hok. rewrite (conn_result_ok W out Hok). apply firstn_all.
Qed.

Lemma capture_success_witness :
  status (rw (run W_ok 0)) = 200%Z /\
  Header_Get (sentHeader (rw (run W_ok 0))) "Content-Type" = "image/png" /\
  Body (rw (run W_ok 0)) = list_byte_of_string "OKDATA" /\
  writes (rw (run W_ok 0)) = [list_byte_of_string "OKDATA"] /\
  exists n err,
    write_calls (trace (run W_ok 0)) = [(list_byte_of_string "OKDATA", n, err)] /\
    delivered (rw (run W_ok 0)) = take n (list_byte_of_string "OKDATA") /\
    (err = None -> delivered (rw (run W_ok 0)) = list_byte_of_string "OKDATA").
Proof.
  apply (capture_success W_ok 0 (list_byte_of_string "OKDATA") [] 5).
  - vm_compute. reflexivity.
  - vm_compute. lia.
Defined.

(** C2.  The handler probes one path, venv/bin/python3, or on windows
    venv, Scripts, python.exe joined by the separator of that system.
    If the probe reports no error, the interpreter is what [filepath.Abs]
    returns for that path, its absolute form; if the probe reports any
    error at all, the interpreter is the default name, python3, or python
    on windows. *)
Theorem interpreter_resolution (W : World) (t : N) :
  let venv := if bool_decide (GOOS W = "windows")
              then "venv\Scripts\python.exe" else "venv/bin/python3" in
  stats (trace (run W t)) = [(venv, fs_stat W venv)] /\
  (fs_stat W venv = None ->
     runs (trace (run W t)) = [(fst (abs_result W venv), ["capture.py"])] /\
     forall p, fs_abs W venv = inl p ->
               runs (trace (run W t)) = [(p, ["capture.py"])]) /\
  (fs_stat W venv <> None ->
     runs (trace (run W t)) =
       [(if bool_decide (GOOS W = "windows") then "python" else "python3",
         ["capture.py"])]).
Proof.
  cbv zeta. rewrite <- venvPythonPath_eq.
  rewrite stats_run, runs_run. unfold pythonExec, abs_result.
  split; [reflexivity|]. split.
  - intros ->. split; [reflexivity|].
    intros p ->. reflexivity.
  - intros Hs. destruct (fs_stat W (venvPythonPath (GOOS W))); [|contradiction].
    reflexivity.
Qed.

Lemma interpreter_resolution_witness :
  runs (trace (run W_venv 0)) = [("/app/venv/bin/python3", ["capture.py"])] /\
  runs (trace (run W_ok 0)) = [("python3", ["capture.py"])] /\
  runs (trace (run W_windows 0)) = [("python", ["capture.py"])].
Proof.
  split; [|split].
  - pose proof (interpreter_resolution W_venv 0) as H. cbv zeta in H.
    destruct H as (_ & H & _). apply H; reflexivity.
  - pose proof (interpreter_resolution W_ok 0) as H. cbv zeta in H.
    destruct H as (_ & _ & H). apply H. discriminate.
  - pose proof (interpreter_resolution W_windows 0) as H. cbv zeta in H.
    destruct H as (_ & _ & H). apply H. discriminate.
Defined.

(** C3, as amended.  When the command cannot be started or the child
    exits non-zero, the handler answers with status 500 and writes as the
    body the prefix, the contents of the standard-error buffer and one
    line feed; and it logs the error, the whole standard output and the
    whole standard error. *)
Theorem capture_failure (W : World) (t : N) (o : ProcOutcome) :
  outcomes (trace (run W t)) = [o] ->
  failed o ->
  status (rw (run W t)) = 500%Z /\
  Body (rw (run W t)) =
    (list_byte_of_string "Failed to capture fingerprint: "
     ++ stderr_of o ++ [x0a])%list /\
  exists e pre d,
    run_error o = Some e /\
    logs (trace (run W t)) =
      (pre ++
       [Printf "Failed to capture fingerprint %v" [AErr e];
        Printf ("Python stdout:" +:+ nl +:+ "%s" +:+ nl)
               [AStr (string_of_list_byte (stdout_of o))];
        Printf ("Python stderr:" +:+ nl +:+ "%s" +:+ nl)
               [AStr (string_of_list_byte (stderr_of o))];
        Printf "sent fingerprint image and took %s" [ADur d]])%list.
Proof.
  intros Ho Hf. rewrite outcomes_run in Ho.
  assert (Hc : child W = o) by congruence.
  destruct (failed_run_error o Hf) as [e He].
  rewrite rw_run, Hc, (answer_response_failed W o e He).
  split; [reflexivity|]. split.
  - rewrite Body_error. unfold failure_msg.
    rewrite list_byte_of_string_app, list_byte_of_string_of_list_byte.
    rewrite <- app_assoc. reflexivity.
  - exists e, (logs (resolve_events W)), (elapsed W).
    split; [exact He|].
    rewrite <- Hc in He |- *. apply logs_run_failed. exact He.
Qed.

Lemma capture_failure_witness :
  status (rw (run W_sensor 0)) = 500%Z /\
  Body (rw (run W_sensor 0)) =
    list_byte_of_string
      ("Failed to capture fingerprint: sensor not found" +:+ nl).
Proof.
  destruct (capture_failure W_sensor 0
              (Exited 1 [] (list_byte_of_string "sensor not found") 3))
    as (Hs & Hb & _).
  - vm_compute. reflexivity.
  - cbn [failed]. lia.
  - split; [exact Hs|]. rewrite Hb. vm_compute. reflexivity.
Defined.

(** C3 as the specification has it fails.  With "sensor not found" on
    the child's standard error the body is not the prefix followed by
    that text: a line feed comes after it.  And no prefix at all makes
    every failure body "prefix, then standard error". *)
Lemma capture_failure_body_counterexample :
  (outcomes (trace (run W_sensor 0)) =
     [Exited 1 [] (list_byte_of_string "sensor not found") 3] /\
   status (rw (run W_sensor 0)) = 500%Z /\
   Body (rw (run W_sensor 0)) <>
     (list_byte_of_string "Failed to capture fingerprint: "
      ++ list_byte_of_string "sensor not found")%list) /\
  ~ (exists prefix : list byte,
       forall (W : World) (t : N) (o : ProcOutcome),
         outcomes (trace (run W t)) = [o] ->
         failed o ->
         Body (rw (run W t)) = (prefix ++ stderr_of o)%list).
Proof.
  split.
  - split; [vm_compute; reflexivity|].
    split; [vm_compute; reflexivity|].
    vm_compute. discriminate.
  - intros [prefix H].
    assert (H1 : Body (rw (run W_nowd 0)) = (prefix ++ [])%list).
    { apply (H W_nowd 0%N (StartFailed ErrNoCommand)).
      - vm_compute. reflexivity.
      - exact I. }
    assert (H2 : Body (rw (run W_sensor 0)) =
                 (prefix ++ list_byte_of_string "sensor not found")%list).
    { apply (H W_sensor 0%N
               (Exited 1 [] (list_byte_of_string "sensor not found") 3)).
      - vm_compute. reflexivity.
      - cbn [failed]. lia. }
    rewrite app_nil_r in H1. subst prefix.
    vm_compute in H2. discriminate.
Qed.

(** C4.  When the child exits 0 and has written nothing to its standard
    output, the handler answers with status 500 and a fixed body, the
    same whatever is in the standard-error buffer: the text of the "no
    data" message, ended by the line feed of [http.Error]. *)
Theorem capture_empty (W : World) (t : N) (errout : list byte) (took : N) :
  outcomes (trace (run W t)) = [Exited 0 [] errout took] ->
  status (rw (run W t)) = 500%Z /\
  Body (rw (run W t)) =
    (list_byte_of_string "No data received from Python script" ++ [x0a])%list.
Proof.
  intros Ho. rewrite outcomes_run in Ho.
  assert (Hc : child W = Exited 0 [] errout took) by congruence.
  rewrite rw_run, Hc.
  rewrite answer_response_empty by reflexivity.
  split; [reflexivity|]. apply Body_error.
Qed.

Lemma capture_empty_witness :
  status (rw (run W_empty 0)) = 500%Z /\
  Body (rw (run W_empty 0)) =
    (list_byte_of_string "No data received from Python script" ++ [x0a])%list.
Proof.
  apply (capture_empty W_empty 0 (list_byte_of_string "warning") 3).
  vm_compute. reflexivity.
Defined.

(** C5.  Every request runs one command: the resolved interpreter with
    the single argument capture.py, wired by the handler to two buffers
    it declares for this request, one for standard output and another
    for standard error.  The child is what the operating system makes of
    that name and that argument.  Before [Run] the handler has done
    nothing but resolve the interpreter; everything else it does comes
    after the child is gone, and it returns no earlier than the child
    took.  What the child wrote to its standard error is then in the
    second buffer and nowhere else, and what it wrote to its standard
    output is in the first, or, when the image is sent, in the one
    [Write] that empties it. *)
Theorem subprocess_invocation (W : World) (t : N) :
  exists exe stdoutBuf stderrBuf o pre post,
    exe = pythonExec W /\
    commands (trace (run W t)) =
      [{| Path := exe; Args := [exe; "capture.py"];
          Stdout := Some stdoutBuf; Stderr := Some stderrBuf |}] /\
    stdoutBuf <> stderrBuf /\
    length (heap (start t)) = 0 /\
    length (heap (run W t)) = 2 /\
    (exe <> "" -> o = os_exec W exe [exe; "capture.py"]) /\
    (exe = "" -> o = StartFailed ErrNoCommand) /\
    trace (run W t) =
      (pre ++ [EvRun {| Path := exe; Args := [exe; "capture.py"];
                        Stdout := Some stdoutBuf; Stderr := Some stderrBuf |};
               EvChild o] ++ post)%list /\
    Forall (fun e => is_resolution_event e = true) pre /\
    Forall (fun e => is_response_event e = false) pre /\
    commands post = [] /\
    outcomes post = [] /\
    Buffer_Bytes <$> heap (run W t) !! stderrBuf = Some (stderr_of o) /\
    (status (rw (run W t)) <> 200%Z ->
     Buffer_Bytes <$> heap (run W t) !! stdoutBuf = Some (stdout_of o)) /\
    (status (rw (run W t)) = 200%Z -> writes (rw (run W t)) = [stdout_of o]) /\
    (t + took_of o <= clock (run W t))%N.
Proof.
  exists (pythonExec W), 0, 1, (child W), (resolve_events W),
    (answer_events W (child W) ++ [took_line (elapsed W)])%list.
  destruct (heap_run W t) as (Hlen & Herr & Hout).
  destruct (child_os_exec W) as [Hos Hno].
  split; [reflexivity|].
  split; [apply commands_run|].
  split; [discriminate|].
  split; [reflexivity|].
  split; [exact Hlen|].
  split; [exact Hos|]. split; [exact Hno|].
  split; [rewrite trace_run; reflexivity|].
  split; [apply resolve_events_resolution|].
  split.
  { eapply Forall_impl; [apply resolve_events_resolution|].
    apply resolution_not_response. }
  split.
  { unfold commands. rewrite omap_app.
    assert (Ha : omap (fun e => match e with EvRun c => Some c | _ => None end)
                   (answer_events W (child W)) = []).
    { by_outcome (child W). }
    rewrite Ha. reflexivity. }
  split.
  { unfold outcomes. rewrite omap_app.
    fold (outcomes (answer_events W (child W))).
    rewrite outcomes_answer. reflexivity. }
  split; [exact Herr|]. split; [exact Hout|].
  split.
  { rewrite rw_run. intros Hst.
    destruct (status_200_image W (child W) Hst) as [He Hne].
    rewrite (answer_response_image W (child W) He Hne). reflexivity. }
  rewrite clock_run. unfold elapsed. lia.
Qed.

Lemma subprocess_invocation_witness :
  exists stdoutBuf stderrBuf,
    stdoutBuf <> stderrBuf /\
    commands (trace (run W_sensor 0)) =
      [{| Path := "python3"; Args := ["python3"; "capture.py"];
          Stdout := Some stdoutBuf; Stderr := Some stderrBuf |}] /\
    Buffer_Bytes <$> heap (run W_sensor 0) !! stderrBuf =
      Some (list_byte_of_string "sensor not found") /\
    Buffer_Bytes <$> heap (run W_sensor 0) !! stdoutBuf = Some [].
Proof.
  destruct (subprocess_invocation W_sensor 0)
    as (exe & b1 & b2 & o & pre & post & Hexe & Hc & Hne & _ & _ & Hos & _
        & _ & _ & _ & _ & _ & Herr & Hout & _).
  assert (Hx : exe = "python3") by (rewrite Hexe; vm_compute; reflexivity).
  subst exe. rewrite Hx in Hc, Hos.
  assert (Ho : o = Exited 1 [] (list_byte_of_string "sensor not found") 3).
  { rewrite Hos; [reflexivity|discriminate]. }
  subst o.
  exists b1, b2. split; [exact Hne|]. split; [exact Hc|].
  split; [exact Herr|]. apply Hout. vm_compute. discriminate.
Defined.

(** C6.  Two requests whose commands come to the same end (same start or
    exit result, same standard output, same standard error) are sent the
    same response, whatever the server has answered, logged and done
    before either of them, and in whatever worlds. *)
Theorem responses_depend_on_outcome_only
    (Ws1 Ws2 : list World) (srv1 srv2 : Server) (W1 W2 : World)
    (o1 o2 : ProcOutcome) :
  last_outcome (snd (serve W1 (snd (serve_all Ws1 srv1)))) = Some o1 ->
  last_outcome (snd (serve W2 (snd (serve_all Ws2 srv2)))) = Some o2 ->
  same_outcome o1 o2 ->
  fst (serve W1 (snd (serve_all Ws1 srv1))) =
  fst (serve W2 (snd (serve_all Ws2 srv2))).
Proof.
  intros H1 H2 Hsame.
  rewrite last_outcome_serve in H1, H2.
  injection H1 as H1. injection H2 as H2.
  rewrite !response_serve, H1, H2.
  apply response_of_answer. exact Hsame.
Qed.

Lemma responses_depend_on_outcome_only_witness :
  fst (serve W_ok (snd (serve_all [W_sensor; W_empty; W_hangup]
                                   {| srv_clock := 0; srv_log := [] |}))) =
  fst (serve W_windows (snd (serve_all [] {| srv_clock := 7; srv_log := [] |}))).
Proof.
  apply (responses_depend_on_outcome_only
           [W_sensor; W_empty; W_hangup] [] _ _ W_ok W_windows
           (Exited 0 (list_byte_of_string "OKDATA") [] 5)
           (Exited 0 (list_byte_of_string "OKDATA") [] 5)).
  - vm_compute. reflexivity.
  - vm_compute. reflexivity.
  - cbn [same_outcome]. repeat split.
Defined.

(** C7.  However the handler is left, it returns, and the last thing in
    its trace is the deferred log line, once, with the time that went by
    between entry and exit; that time is no less than the child took. *)
Theorem elapsed_time_is_logged (W : World) (t : N) :
  result W t = Val tt /\
  exists pre o,
    trace (run W t) = (pre ++ [took_line (clock (run W t) - t)])%list /\
    Forall (fun e => forall d, e <> took_line d) pre /\
    outcomes pre = [o] /\
    (took_of o <= clock (run W t) - t)%N /\
    (t <= clock (run W t))%N.
Proof.
  split; [apply result_eq|].
  exists (resolve_events W
          ++ [EvRun (command W); EvChild (child W)]
          ++ answer_events W (child W))%list, (child W).
  assert (Hel : (clock (run W t) - t)%N = elapsed W).
  { rewrite clock_run. lia. }
  rewrite Hel, trace_run, clock_run.
  split; [rewrite <- !app_assoc; reflexivity|].
  split.
  { apply Forall_app. split.
    - eapply Forall_impl; [apply resolve_events_resolution|].
      apply resolution_not_took.
    - apply Forall_app. split.
      + repeat constructor; discriminate.
      + apply answer_events_not_took. }
  split.
  { unfold outcomes. rewrite !omap_app.
    fold (outcomes (resolve_events W)).
    fold (outcomes (answer_events W (child W))).
    rewrite outcomes_resolve, outcomes_answer. reflexivity. }
  unfold elapsed. split; lia.
Qed.

(** The four ways out of the handler, each ending in the timing line. *)
Example elapsed_time_on_each_path :
  last (trace (run W_ok 10)) = Some (took_line 8) /\
  last (trace (run W_hangup 10)) = Some (took_line 8) /\
  last (trace (run W_sensor 10)) = Some (took_line 6) /\
  last (trace (run W_empty 10)) = Some (took_line 6).
Proof. vm_compute. repeat split. Qed.

(** C8.  If the [Write] of the image reports an error, the status 200 and
    the Content-Type being out already, the handler returns normally and
    that [Write] is the last thing it did to the response: the trace ends
    with it and the deferred log line, no status line and no other
    [Write] comes before or after, and nothing but the timing is logged
    after the resolution. *)
Theorem copy_error_abandons_response
    (W : World) (t : N) (p : list byte) (n : nat) (e : error) :
  EvWrite p n (Some e) ∈ trace (run W t) ->
  status (rw (run W t)) = 200%Z ->
  result W t = Val tt /\
  (exists pre,
     trace (run W t) =
       (pre ++ [EvWrite p n (Some e); took_line (clock (run W t) - t)])%list /\
     Forall (fun ev => is_write_event ev = false) pre) /\
  write_calls (trace (run W t)) = [(p, n, Some e)] /\
  writes (rw (run W t)) = [p] /\
  Header_Get (sentHeader (rw (run W t))) "Content-Type" = "image/png" /\
  exists found,
    Forall (fun l => exists q,
              l = Println [AStr "Found virtual environment python executable at";
                           AStr q]) found /\
    logs (trace (run W t)) =
      (found ++ [Printf "sent fingerprint image and took %s"
                        [ADur (clock (run W t) - t)]])%list.
Proof.
  intros Hin Hst. rewrite rw_run in Hst.
  destruct (status_200_image W (child W) Hst) as [Herr Hne].
  apply elem_write_calls in Hin. rewrite write_calls_run in Hin.
  rewrite (answer_events_image W (child W) Herr Hne) in Hin.
  cbn [write_calls omap list_omap] in Hin.
  apply list_elem_of_singleton in Hin. injection Hin as Hp Hn He.
  assert (Hel : (clock (run W t) - t)%N = elapsed W).
  { rewrite clock_run. lia. }
  split; [apply result_eq|].
  rewrite write_calls_run, trace_run, rw_run, Hel.
  rewrite (answer_events_image W (child W) Herr Hne).
  rewrite (answer_response_image W (child W) Herr Hne).
  rewrite <- He, <- Hn, <- Hp.
  split.
  { exists (resolve_events W ++
            [EvRun (command W); EvChild (child W);
             EvHeaderSet "Content-Type" "image/png"])%list.
    split; [rewrite <- !app_assoc; reflexivity|].
    apply Forall_app. split.
    - eapply Forall_impl; [apply resolve_events_resolution|].
      apply resolution_not_write.
    - repeat constructor. }
  split; [reflexivity|]. split; [reflexivity|].
  split; [apply Header_Get_image|].
  exists (logs (resolve_events W)). split.
  - unfold resolve_events.
    destruct (fs_stat W (venvPythonPath (GOOS W))).
    + constructor.
    + repeat constructor. eexists. reflexivity.
  - unfold logs. rewrite !omap_app. reflexivity.
Qed.

Lemma copy_error_abandons_response_witness :
  result W_hangup 0 = Val tt /\
  write_calls (trace (run W_hangup 0)) =
    [(list_byte_of_string "OKDATA", 3, Some (ErrMsg "broken pipe"))] /\
  writes (rw (run W_hangup 0)) = [list_byte_of_string "OKDATA"].
Proof.
  destruct (copy_error_abandons_response W_hangup 0
              (list_byte_of_string "OKDATA") 3 (ErrMsg "broken pipe"))
    as (H1 & _ & H2 & H3 & _).
  - vm_compute. do 4 right. left.
  - vm_compute. reflexivity.
  - split; [exact H1|]. split; [exact H2|exact H3].
Defined.

(** C9.  A response with status 500 has as its body the message handed
    to [http.Error] (the fixed one, or the prefix with the standard-error
    text) followed by exactly one line feed, and its Content-Type is
    text/plain, not image/png. *)
Theorem error_responses_are_plain_text (W : World) (t : N) :
  status (rw (run W t)) = 500%Z ->
  exists msg,
    (msg = "No data received from Python script" \/
     exists o, outcomes (trace (run W t)) = [o] /\
               msg = "Failed to capture fingerprint: "
                     +:+ string_of_list_byte (stderr_of o)) /\
    Body (rw (run W t)) = (list_byte_of_string msg ++ [x0a])%list /\
    writes (rw (run W t)) = [list_byte_of_string (msg +:+ nl)] /\
    Header_Get (sentHeader (rw (run W t))) "Content-Type"
      = "text/plain; charset=utf-8" /\
    Header_Get (sentHeader (rw (run W t))) "Content-Type" <> "image/png".
Proof.
  rewrite outcomes_run, rw_run. unfold answer_response.
  destruct (run_error (child W)) as [e|].
  - intros _. exists (failure_msg (stderr_of (child W))).
    split; [right; exists (child W); split; reflexivity|].
    rewrite Body_error. cbn [error_response sentHeader writes].
    rewrite Header_Get_error.
    split; [reflexivity|]. split; [reflexivity|]. split; [reflexivity|].
    discriminate.
  - destruct (stdout_of (child W)) as [|b out].
    + intros _. exists no_data_msg.
      split; [left; reflexivity|].
      rewrite Body_error. cbn [error_response sentHeader writes].
      rewrite Header_Get_error.
      split; [reflexivity|]. split; [reflexivity|]. split; [reflexivity|].
      discriminate.
    + cbn [image_response status]. unfold StatusOK. discriminate.
Qed.

Lemma error_responses_are_plain_text_witness :
  exists msg,
    (msg = "No data received from Python script" \/
     exists o, outcomes (trace (run W_sensor 0)) = [o] /\
               msg = "Failed to capture fingerprint: "
                     +:+ string_of_list_byte (stderr_of o)) /\
    Body (rw (run W_sensor 0)) = (list_byte_of_string msg ++ [x0a])%list /\
    writes (rw (run W_sensor 0)) = [list_byte_of_string (msg +:+ nl)] /\
    Header_Get (sentHeader (rw (run W_sensor 0))) "Content-Type"
      = "text/plain; charset=utf-8" /\
    Header_Get (sentHeader (rw (run W_sensor 0))) "Content-Type" <> "image/png".
Proof.
  apply (error_responses_are_plain_text W_sensor 0).
  vm_compute. reflexivity.
Defined.

(** C10.  When the probed path exists and [filepath.Abs] fails on it, the
    error is dropped and the command is built with the empty string for
    a name, not with the default name; [Run] refuses it and the request
    is answered with status 500. *)
Theorem abs_failure_is_not_recovered (W : World) (t : N) (p : string) (e : error) :
  stats (trace (run W t)) = [(p, None)] ->
  fs_abs W p = inr e ->
  runs (trace (run W t)) = [("", ["capture.py"])] /\
  runs (trace (run W t)) <>
    [(if bool_decide (GOOS W = "windows") then "python" else "python3",
      ["capture.py"])] /\
  outcomes (trace (run W t)) = [StartFailed ErrNoCommand] /\
  logs (trace (run W t)) =
    [Println [AStr "Found virtual environment python executable at"; AStr p];
     Printf "Failed to capture fingerprint %v" [AErr ErrNoCommand];
     Printf ("Python stdout:" +:+ nl +:+ "%s" +:+ nl) [AStr ""];
     Printf ("Python stderr:" +:+ nl +:+ "%s" +:+ nl) [AStr ""];
     Printf "sent fingerprint image and took %s" [ADur (clock (run W t) - t)]] /\
  status (rw (run W t)) = 500%Z /\
  Body (rw (run W t)) =
    (list_byte_of_string "Failed to capture fingerprint: " ++ [x0a])%list.
Proof.
  intros Hs Ha. rewrite stats_run in Hs.
  assert (Hp : venvPythonPath (GOOS W) = p) by congruence.
  assert (Hst : fs_stat W (venvPythonPath (GOOS W)) = None) by congruence.
  assert (Hexe : pythonExec W = "").
  { unfold pythonExec, abs_result. rewrite Hst, Hp, Ha. reflexivity. }
  pose proof (child_no_command W Hexe) as Hc.
  assert (Hel : (clock (run W t) - t)%N = elapsed W).
  { rewrite clock_run. lia. }
  rewrite runs_run, outcomes_run, rw_run, Hel, Hexe, Hc.
  rewrite (logs_run_failed W t ErrNoCommand) by (rewrite Hc; reflexivity).
  rewrite Hc. unfold resolve_events. rewrite Hst, Hp.
  rewrite (answer_response_failed W _ ErrNoCommand) by reflexivity.
  split; [reflexivity|].
  split; [destruct (bool_decide (GOOS W = "windows")); discriminate|].
  split; [reflexivity|]. split; [reflexivity|]. split; [reflexivity|].
  rewrite Body_error. reflexivity.
Qed.

Lemma abs_failure_is_not_recovered_witness :
  runs (trace (run W_nowd 0)) = [("", ["capture.py"])] /\
  outcomes (trace (run W_nowd 0)) = [StartFailed ErrNoCommand] /\
  status (rw (run W_nowd 0)) = 500%Z.
Proof.
  destruct (abs_failure_is_not_recovered W_nowd 0 "venv/bin/python3"
              (ErrMsg "getwd: no such file or directory"))
    as (H1 & _ & H2 & _ & H3 & _).
  - vm_compute. reflexivity.
  - reflexivity.
  - split; [exact H1|]. split; [exact H2|exact H3].
Defined.

(** * Further properties of the handler *)

Lemma logs_resolve (W : World) :
  logs (resolve_events W) =
    match fs_stat W (venvPythonPath (GOOS W)) with
    | None => [found_line (venvPythonPath (GOOS W))]
    | Some _ => []
    end.
Proof.
  unfold resolve_events.
  destruct (fs_stat W (venvPythonPath (GOOS W))); reflexivity.
Qed.

Lemma logs_run (W : World) (t : N) :
  logs (trace (run W t)) =
    (logs (resolve_events W) ++ logs (answer_events W (child W))
     ++ [Printf "sent fingerprint image and took %s" [ADur (elapsed W)]])%list.
Proof.
  rewrite trace_run. unfold logs. rewrite !omap_app. reflexivity.
Qed.

Lemma abs_calls_run (W : World) (t : N) :
  abs_calls (trace (run W t)) =
    match fs_stat W (venvPythonPath (GOOS W)) with
    | None =>
        [(venvPythonPath (GOOS W),
          fst (abs_result W (venvPythonPath (GOOS W))),
          snd (abs_result W (venvPythonPath (GOOS W))))]
    | Some _ => []
    end.
Proof.
  rewrite trace_run. unfold abs_calls. rewrite !omap_app.
  assert (Ha : omap (fun e => match e with
                              | EvAbs p q err => Some (p, q, err)
                              | _ => None
                              end) (answer_events W (child W)) = []).
  { by_outcome (child W). }
  rewrite Ha. unfold resolve_events.
  destruct (fs_stat W (venvPythonPath (GOOS W))); reflexivity.
Qed.

Lemma elapsed_run (W : World) (t : N) : (clock (run W t) - t)%N = elapsed W.
Proof. rewrite clock_run. lia. Qed.

Lemma run_error_none (o : ProcOutcome) :
  run_error o = None ->
  exists out errout took, o = Exited 0 out errout took.
Proof.
  destruct o as [e|code out errout took]; cbn [run_error]; [discriminate|].
  destruct (bool_decide_reflect (code = 0%Z)) as [->|]; [|discriminate].
  intros _. exists out, errout, took. reflexivity.
Qed.

Lemma error_body_nonempty (msg : string) : error_body msg <> [].
Proof.
  rewrite error_body_bytes. intros H.
  apply (f_equal length) in H. rewrite length_app in H. cbn [length] in H. lia.
Qed.

Lemma write_calls_answer (W : World) (o : ProcOutcome) :
  exists p,
    write_calls (answer_events W o) =
      [(p, fst (conn_result W p), snd (conn_result W p))] /\
    writes (answer_response W o) = [p] /\
    p <> [] /\
    exists pre,
      answer_events W o =
        (pre ++ [EvWrite p (fst (conn_result W p)) (snd (conn_result W p))])%list.
Proof.
  unfold answer_events, answer_response, error_events.
  destruct (run_error o).
  - exists (error_body (failure_msg (stderr_of o))).
    split; [reflexivity|]. split; [reflexivity|].
    split; [apply error_body_nonempty|].
    eexists [_; _; _; _; _; _; _]. reflexivity.
  - destruct (stdout_of o) as [|b out] eqn:Ho.
    + exists (error_body no_data_msg).
      split; [reflexivity|]. split; [reflexivity|].
      split; [apply error_body_nonempty|].
      eexists [_; _; _; _; _]. reflexivity.
    + exists (b :: out).
      split; [reflexivity|]. split; [reflexivity|].
      split; [discriminate|].
      eexists [_]. reflexivity.
Qed.

(** X1.  Status 200 is sent exactly when the child exited 0 and wrote
    something to its standard output: no other outcome gets a 200. *)
Theorem status_ok_iff_image (W : World) (t : N) :
  status (rw (run W t)) = 200%Z <->
  exists out errout took,
    outcomes (trace (run W t)) = [Exited 0 out errout took] /\ out <> [].
Proof.
  rewrite rw_run, outcomes_run. split.
  - intros Hst. destruct (status_200_image W (child W) Hst) as [He Hne].
    destruct (run_error_none (child W) He) as (out & errout & took & Hc).
    exists out, errout, took. rewrite Hc in Hne |- *.
    split; [reflexivity|exact Hne].
  - intros (out & errout & took & Hc & Hne).
    injection Hc as Hc. rewrite Hc.
    rewrite answer_response_image; [reflexivity|reflexivity|exact Hne].
Qed.

Lemma status_ok_iff_image_witness : status (rw (run W_ok 0)) = 200%Z.
Proof.
  apply (proj2 (status_ok_iff_image W_ok 0)).
  exists (list_byte_of_string "OKDATA"), [], 5%N.
  split; [vm_compute; reflexivity|discriminate].
Defined.

(** X2.  A request whose command has come to an end, started or not,
    is answered once: the status line is out with 200 or 500, and the
    body was handed over in exactly one [Write] of at least one byte,
    whatever the outcome was. *)
Theorem ended_command_is_answered_once (W : World) (t : N) (o : ProcOutcome) :
  outcomes (trace (run W t)) = [o] ->
  wroteHeader (rw (run W t)) = true /\
  (status (rw (run W t)) = 200%Z \/ status (rw (run W t)) = 500%Z) /\
  exists p n err,
    write_calls (trace (run W t)) = [(p, n, err)] /\
    writes (rw (run W t)) = [p] /\
    p <> [] /\
    (status (rw (run W t)) = 200%Z -> p = stdout_of o).
Proof.
  rewrite outcomes_run. intros Ho. injection Ho as Ho.
  rewrite write_calls_run, rw_run, Ho.
  split; [|split].
  - unfold answer_response.
    destruct (run_error o); [reflexivity|].
    destruct (stdout_of o); reflexivity.
  - unfold answer_response.
    destruct (run_error o); [right; reflexivity|].
    destruct (stdout_of o); [right|left]; reflexivity.
  - destruct (write_calls_answer W o) as (p & Hw & Hws & Hp & _).
    exists p, (fst (conn_result W p)), (snd (conn_result W p)).
    split; [exact Hw|]. split; [exact Hws|]. split; [exact Hp|].
    intros Hst. destruct (status_200_image W o Hst) as [He Hne].
    rewrite (answer_response_image W o He Hne) in Hws.
    cbn [writes] in Hws. injection Hws as Hws. symmetry. exact Hws.
Qed.

Lemma ended_command_is_answered_once_witness :
  wroteHeader (rw (run W_sensor 0)) = true /\
  (status (rw (run W_sensor 0)) = 200%Z \/ status (rw (run W_sensor 0)) = 500%Z).
Proof.
  destruct (ended_command_is_answered_once W_sensor 0
              (Exited 1 [] (list_byte_of_string "sensor not found") 3))
    as (H1 & H2 & _).
  - vm_compute. reflexivity.
  - split; [exact H1|exact H2].
Defined.

(** X3.  The response to a failure tells the client nothing but the
    child's standard error: two failures with the same standard-error
    text get the same response, whatever the exit status or the start
    error, and whatever the child had printed on its standard output. *)
Theorem failure_response_shows_stderr_only
    (W1 W2 : World) (t1 t2 : N) (o1 o2 : ProcOutcome) :
  outcomes (trace (run W1 t1)) = [o1] ->
  outcomes (trace (run W2 t2)) = [o2] ->
  failed o1 -> failed o2 ->
  stderr_of o1 = stderr_of o2 ->
  response_of (rw (run W1 t1)) = response_of (rw (run W2 t2)).
Proof.
  intros H1 H2 Hf1 Hf2 Herr. rewrite outcomes_run in H1, H2.
  injection H1 as H1. injection H2 as H2.
  destruct (failed_run_error o1 Hf1) as [e1 He1].
  destruct (failed_run_error o2 Hf2) as [e2 He2].
  rewrite !rw_run, H1, H2.
  rewrite (answer_response_failed W1 o1 e1 He1).
  rewrite (answer_response_failed W2 o2 e2 He2).
  rewrite Herr. reflexivity.
Qed.

Lemma failure_response_shows_stderr_only_witness :
  response_of (rw (run W_nowd 0)) = response_of (rw (run W_partial 9)).
Proof.
  apply (failure_response_shows_stderr_only W_nowd W_partial 0 9
           (StartFailed ErrNoCommand)
           (Exited 2 (list_byte_of_string "PARTIAL") [] 4)).
  - vm_compute. reflexivity.
  - vm_compute. reflexivity.
  - exact I.
  - cbn [failed]. lia.
  - reflexivity.
Defined.

(** X4.  When the child exits 0 the log holds at most three lines: the
    found line if the probe succeeded, the empty-output line if nothing
    was printed, and the timing line.  Nothing the child wrote, on
    either stream, is logged. *)
Theorem exit_zero_logs_no_output
    (W : World) (t : N) (out errout : list byte) (took : N) :
  outcomes (trace (run W t)) = [Exited 0 out errout took] ->
  logs (trace (run W t)) =
    (match stats (trace (run W t)) with
     | [(p, None)] => [found_line p]
     | _ => []
     end
     ++ match out with
        | [] => [Println [AStr "Python script returned empty output."]]
        | _ :: _ => []
        end
     ++ [Printf "sent fingerprint image and took %s"
                [ADur (clock (run W t) - t)]])%list.
Proof.
  intros Ho. rewrite outcomes_run in Ho. injection Ho as Hc.
  rewrite logs_run, stats_run, elapsed_run, logs_resolve, Hc.
  assert (Hans : logs (answer_events W (Exited 0 out errout took)) =
                 match out with
                 | [] => [Println [AStr "Python script returned empty output."]]
                 | _ :: _ => []
                 end).
  { unfold answer_events. cbn [run_error stdout_of].
    destruct out; reflexivity. }
  rewrite Hans.
  destruct (fs_stat W (venvPythonPath (GOOS W))); reflexivity.
Qed.

Lemma exit_zero_logs_no_output_witness :
  logs (trace (run W_empty 0)) =
    [Println [AStr "Python script returned empty output."];
     Printf "sent fingerprint image and took %s" [ADur 6]].
Proof.
  rewrite (exit_zero_logs_no_output W_empty 0 [] (list_byte_of_string "warning") 3).
  - vm_compute. reflexivity.
  - vm_compute. reflexivity.
Defined.

(** X5.  The probe decides two things together.  If it succeeds, the
    handler logs the found line first, naming the path it probed, and
    asks [filepath.Abs] about that path once; the command it runs is what
    [filepath.Abs] gave back, which the log never shows.  If it fails
    there is no found line and [filepath.Abs] is not called. *)
Theorem found_line_follows_probe (W : World) (t : N) :
  exists p err,
    stats (trace (run W t)) = [(p, err)] /\
    (err = None ->
       exists q aerr rest,
         abs_calls (trace (run W t)) = [(p, q, aerr)] /\
         runs (trace (run W t)) = [(q, ["capture.py"])] /\
         logs (trace (run W t)) = found_line p :: rest /\
         Forall (fun l => forall p', l <> found_line p') rest) /\
    (err <> None ->
       abs_calls (trace (run W t)) = [] /\
       Forall (fun l => forall p', l <> found_line p') (logs (trace (run W t)))).
Proof.
  exists (venvPythonPath (GOOS W)), (fs_stat W (venvPythonPath (GOOS W))).
  rewrite stats_run, abs_calls_run, runs_run, logs_run, logs_resolve.
  unfold pythonExec.
  assert (Hrest : Forall (fun l => forall p', l <> found_line p')
            (logs (answer_events W (child W))
             ++ [Printf "sent fingerprint image and took %s"
                        [ADur (elapsed W)]])%list).
  { apply Forall_app. split.
    - unfold answer_events, error_events.
      destruct (run_error (child W)); [repeat constructor; discriminate|].
      destruct (stdout_of (child W)); repeat constructor; discriminate.
    - repeat constructor; discriminate. }
  split; [reflexivity|]. split.
  - intros Hs. rewrite Hs.
    eexists _, _, _. split; [reflexivity|]. split; [reflexivity|].
    split; [reflexivity|exact Hrest].
  - intros Hs.
    destruct (fs_stat W (venvPythonPath (GOOS W))); [|contradiction].
    split; [reflexivity|exact Hrest].
Qed.

Lemma found_line_follows_probe_witness :
  exists rest,
    logs (trace (run W_venv 0)) = found_line "venv/bin/python3" :: rest /\
    runs (trace (run W_venv 0)) = [("/app/venv/bin/python3", ["capture.py"])].
Proof.
  destruct (found_line_follows_probe W_venv 0) as (p & err & Hs & Hok & _).
  vm_compute in Hs. injection Hs as <- <-.
  destruct (Hok eq_refl) as (q & aerr & rest & Ha & Hr & Hl & _).
  vm_compute in Ha. injection Ha as <- <-.
  exists rest. split; [exact Hl|exact Hr].
Defined.

(** X6.  A [Write] that fails is the last thing the handler does to a
    response, on the error answers as on the image: the handler returns
    normally, that [Write] was its only one, and nothing comes after it
    but the deferred timing line. *)
Theorem failed_write_ends_the_answer
    (W : World) (t : N) (p : list byte) (n : nat) (e : error) :
  EvWrite p n (Some e) ∈ trace (run W t) ->
  result W t = Val tt /\
  write_calls (trace (run W t)) = [(p, n, Some e)] /\
  exists pre,
    trace (run W t) =
      (pre ++ [EvWrite p n (Some e); took_line (clock (run W t) - t)])%list.
Proof.
  intros Hin. split; [apply result_eq|].
  apply elem_write_calls in Hin. rewrite write_calls_run in Hin.
  destruct (write_calls_answer W (child W)) as (p' & Hw & _ & _ & pre & Hpre).
  rewrite Hw in Hin. apply list_elem_of_singleton in Hin.
  injection Hin as Hp Hn He.
  rewrite write_calls_run, trace_run, elapsed_run, Hw, Hpre.
  rewrite <- He, <- Hn, <- Hp.
  split; [reflexivity|].
  exists (resolve_events W
          ++ [EvRun (command W); EvChild (child W)]
          ++ pre)%list.
  rewrite <- !app_assoc. reflexivity.
Qed.

Lemma failed_write_ends_the_answer_witness :
  result W_sensor_hangup 0 = Val tt /\
  write_calls (trace (run W_sensor_hangup 0)) =
    [(list_byte_of_string ("Failed to capture fingerprint: sensor not found" +:+ nl),
      0, Some (ErrMsg "broken pipe"))].
Proof.
  destruct (failed_write_ends_the_answer W_sensor_hangup 0
              (list_byte_of_string
                 ("Failed to capture fingerprint: sensor not found" +:+ nl))
              0 (ErrMsg "broken pipe"))
    as (H1 & H2 & _).
  - vm_compute. do 10 right. left.
  - split; [exact H1|exact H2].
Defined.

(** * The build script *)

(** The script when the first build fails. *)
Lemma build_script_linux_fails (run : list string -> Z) (echo : nat -> Z) :
  run build_linux_cmd <> 0%Z ->
  build_script run echo [] =
    (ShExit 1,
     [ShEcho "Starting build process..." (echo 0);
      ShEcho "Compiling for Linux..." (echo 1);
      ShRun build_linux_cmd (run build_linux_cmd);
      ShEcho "Error: Failed to compile for Linux." (echo 3)]).
Proof.
  intros H. unfold build_script, sh_bind, sh_echo, sh_run, sh_exit.
  cbn [app length].
  destruct (Z.eqb_spec (run build_linux_cmd) 0%Z); [contradiction|].
  reflexivity.
Qed.

(** The script when the first build succeeds and the second fails. *)
Lemma build_script_windows_fails (run : list string -> Z) (echo : nat -> Z) :
  run build_linux_cmd = 0%Z ->
  run build_windows_cmd <> 0%Z ->
  build_script run echo [] =
    (ShExit 1,
     [ShEcho "Starting build process..." (echo 0);
      ShEcho "Compiling for Linux..." (echo 1);
      ShRun build_linux_cmd 0;
      ShEcho ("Successfully compiled for Linux: " +:+ LINUX_OUTPUT) (echo 3);
      ShEcho "" (echo 4); ShEcho "Compiling for Windows..." (echo 5);
      ShRun build_windows_cmd (run build_windows_cmd);
      ShEcho "Error: Failed to compile for Windows." (echo 7)]).
Proof.
  intros H1 H2. unfold build_script, sh_bind, sh_echo, sh_run, sh_exit.
  cbn [app length]. rewrite H1. cbn [Z.eqb app length].
  destruct (Z.eqb_spec (run build_windows_cmd) 0%Z); [contradiction|].
  reflexivity.
Qed.

(** The script when both builds succeed: it goes to its last line, and
    its status is that of the last [echo]. *)
Lemma build_script_builds_ok (run : list string -> Z) (echo : nat -> Z) :
  run build_linux_cmd = 0%Z ->
  run build_windows_cmd = 0%Z ->
  build_script run echo [] =
    (ShVal (echo 11),
     [ShEcho "Starting build process..." (echo 0);
      ShEcho "Compiling for Linux..." (echo 1);
      ShRun build_linux_cmd 0;
      ShEcho ("Successfully compiled for Linux: " +:+ LINUX_OUTPUT) (echo 3);
      ShEcho "" (echo 4); ShEcho "Compiling for Windows..." (echo 5);
      ShRun build_windows_cmd 0;
      ShEcho ("Successfully compiled for Windows: " +:+ WINDOWS_OUTPUT) (echo 7);
      ShRun copy_cmd (run copy_cmd);
      ShEcho "" (echo 9); ShEcho "Build process complete." (echo 10);
      ShEcho "Executables are located in the current directory." (echo 11)]).
Proof.
  intros H1 H2. unfold build_script, sh_bind, sh_echo, sh_run, sh_exit.
  cbn [app length]. rewrite H1. cbn [Z.eqb app length].
  rewrite H2. cbn [Z.eqb app length].
  reflexivity.
Qed.








